(** * Scouting entry management: merge, query and navigation

    A shallow embedding of the table logic of

      - [src/model/verification/vcmanager.py]  (class [VerificationManager])
      - [processor/entry_manager.py]           (class [EntryManager])

    The pandas [DataFrame]s of the program are lists of rows.  The edited
    table carries its index labels explicitly, because the program both
    looks rows up by label ([in df.index], [.loc], [drop]) and by position
    ([.iloc]), and [drop] leaves gaps in the labels.  Code that can raise
    returns a [result].

    Conventions.  The integer columns hold integers of [Z] and a missing
    [RawIndex] (NaN) is [None]; the column [RawIndex] holds floats as soon
    as one of its values is missing ([float_column]), and the column types
    of pandas are not modelled beyond that.  Strings are sequences of
    8-bit characters, the UTF-8 bytes of the text; the character classes
    of the format test are those of ASCII, and the lowering of names in
    [search] is Python's, taken as given ([str_lower]).  The files of the
    scan directory are given as the lists of
    their lines, and the clock as the reading passed to [append].
    Printing is left out. *)

From Stdlib Require Import String Ascii ZArith List Bool Lia.
From Stdlib Require Import Permutation Sorted DecimalString.
Import ListNotations.

Local Open Scope string_scope.
Local Open Scope Z_scope.
Local Open Scope list_scope.

(** ** Exceptions and results *)

Inductive exn : Type :=
| IndexError
| KeyError
| ValueError
| TypeError
| CollaboratorError.   (* raised inside boards / decoder / entrylib *)

Inductive result (A : Type) : Type :=
| Ok (a : A)
| Raise (e : exn).

Arguments Ok {A} a.
Arguments Raise {A} e.

Definition bind {A B : Type} (m : result A) (k : A -> result B) : result B :=
  match m with
  | Ok a => k a
  | Raise e => Raise e
  end.

Notation "x <- m ;; k" := (bind m (fun x => k))
  (at level 61, m at next level, right associativity).

(** ** Rows and tables *)

(** The columns of [database.RAW_HEADER]. *)
Record Columns : Type := {
  Match : Z;
  Team : Z;
  Name : string;
  StartTime : string;
  Board : string;
  Data : string;
  Comments : string
}.

(** The columns of [database.EDITED_HEADER]: those of a raw row plus
    [RawIndex] (NaN is [None]) and [Edited]. *)
Record EditedRow : Type := {
  RawIndex : option Z;
  cols :> Columns;
  Edited : string
}.

(** A frame with an explicit index: (label, row) in row order. *)
Definition DataFrame (R : Type) : Type := list (Z * R).

(** [raw_entries] always carries the default [RangeIndex]: it is built by
    [pd.DataFrame(list)] in [update] and stored and reloaded as such, so
    it is a list whose index is the position. *)
Definition RawTable : Type := list Columns.
Definition EditedTable : Type := DataFrame EditedRow.

Definition index {R} (df : DataFrame R) : list Z := map fst df.
Definition rows {R} (df : DataFrame R) : list R := map snd df.

(** [enumerate_from n l] labels [l] with [n, n+1, ...]. *)
Fixpoint enumerate_from {A} (n : Z) (l : list A) : list (Z * A) :=
  match l with
  | [] => []
  | x :: l' => (n, x) :: enumerate_from (n + 1) l'
  end.

(** [reset_index] / a fresh [RangeIndex]. *)
Definition reset_index {A} (l : list A) : DataFrame A := enumerate_from 0 l.

(** [Series.dropna]. *)
Fixpoint dropna (l : list (option Z)) : list Z :=
  match l with
  | [] => []
  | Some z :: l' => z :: dropna l'
  | None :: l' => dropna l'
  end.

(** [Index.isin] / [Series.isin] on integers. *)
Definition isin (x : Z) (values : list Z) : bool := existsb (Z.eqb x) values.

(** [pd.concat([df, new], ignore_index=True)]. *)
Definition concat_ignore_index {R} (df : DataFrame R) (new : list R)
  : DataFrame R :=
  reset_index (rows df ++ new).

(** ** [VerificationManager.merge] (and the same code in
       [EntryManager.__init__]) *)

(** The raw index values already referenced by the edited table. *)
Definition referenced (edited : EditedTable) : list Z :=
  dropna (map RawIndex (rows edited)).

(** [new_data]: the unreferenced raw rows, with their raw index as
    [RawIndex] and [Edited] set to one blank. *)
Definition new_data (raw : RawTable) (edited : EditedTable) : list EditedRow :=
  map (fun ir => {| RawIndex := Some (fst ir); cols := snd ir; Edited := " " |})
      (filter (fun ir => negb (isin (fst ir) (referenced edited)))
              (reset_index raw)).

Definition merge (raw : RawTable) (edited : EditedTable) : EditedTable :=
  concat_ignore_index edited (new_data raw edited).

(** The labels of a table are its positions. *)
Definition range_indexed {R} (df : DataFrame R) : Prop :=
  df = reset_index (rows df).

(** Number of edited rows whose [RawIndex] is [i]. *)
Definition refs_to (i : Z) (l : list EditedRow) : nat :=
  length (filter (fun r => match RawIndex r with
                           | Some j => Z.eqb i j
                           | None => false
                           end) l).

(** ** Python strings and numbers *)

(** A value passed by a caller that may be an [int] or a [str]. *)
Inductive pyval : Type :=
| PyInt (z : Z)
| PyStr (s : string).

(** [str(n)] for an integer. *)
Definition str_of_int (z : Z) : string := NilZero.string_of_int (Z.to_int z).

(** [str(v)]. *)
Definition str (v : pyval) : string :=
  match v with
  | PyInt z => str_of_int z
  | PyStr s => s
  end.

(** [s == v] for a string [s]: a string never equals an integer. *)
Definition str_eq (s : string) (v : pyval) : bool :=
  match v with
  | PyInt _ => false
  | PyStr t => String.eqb s t
  end.

(** [s.startswith(p)]. *)
Definition startswith (s p : string) : bool := String.prefix p s.

(** [sub in s]. *)
Fixpoint contains (sub s : string) : bool :=
  String.prefix sub s ||
  match s with
  | EmptyString => false
  | String _ s' => contains sub s'
  end.

(** [s.lower()] on a string of ASCII characters; it serves the test of
    the file extension.  (The names of [search] are lowered by
    [str_lower].) *)
Definition lower_ascii (c : ascii) : ascii :=
  let n := nat_of_ascii c in
  if ((65 <=? n) && (n <=? 90))%nat then ascii_of_nat (n + 32) else c.

Fixpoint lower (s : string) : string :=
  match s with
  | EmptyString => EmptyString
  | String c s' => String (lower_ascii c) (lower s')
  end.

(** [s.split(sep)] for a one-character separator. *)
Fixpoint split (sep : ascii) (s : string) : list string :=
  match s with
  | EmptyString => [EmptyString]
  | String c s' =>
      if Ascii.eqb c sep then EmptyString :: split sep s'
      else match split sep s' with
           | [] => [String c EmptyString]
           | piece :: rest => String c piece :: rest
           end
  end.

(** Every character of [s] is in the class [p]. *)
Fixpoint all_chars (p : ascii -> bool) (s : string) : bool :=
  match s with
  | EmptyString => true
  | String c s' => p c && all_chars p s'
  end.

(** [s] has no character [sep]. *)
Fixpoint free_of (sep : ascii) (s : string) : bool :=
  match s with
  | EmptyString => true
  | String c s' => negb (Ascii.eqb c sep) && free_of sep s'
  end.

(** The first piece of a split: the text up to the first separator. *)
Definition first_piece (sep : ascii) (s : string) : string :=
  hd EmptyString (split sep s).

(** [sep.join(l)]. *)
Definition join (sep : string) (l : list string) : string := String.concat sep l.

(** The class [\d] among the ASCII characters.  (On a text pattern [\d]
    also accepts the decimal digits of other scripts; lines with such
    digits are outside this model.) *)
Definition is_digit (c : ascii) : bool :=
  let n := nat_of_ascii c in ((48 <=? n) && (n <=? 57))%nat.

(** The class [[0-9a-f]]. *)
Definition is_hex (c : ascii) : bool :=
  let n := nat_of_ascii c in
  is_digit c || ((97 <=? n) && (n <=? 102))%nat.

(** The value of a digit in [int(s, base)] (both letter cases). *)
Definition digit_value (c : ascii) : option Z :=
  let n := nat_of_ascii c in
  if ((48 <=? n) && (n <=? 57))%nat then Some (Z.of_nat n - 48)
  else if ((97 <=? n) && (n <=? 102))%nat then Some (Z.of_nat n - 87)
  else if ((65 <=? n) && (n <=? 70))%nat then Some (Z.of_nat n - 55)
  else None.

Fixpoint int_digits (base acc : Z) (s : string) : option Z :=
  match s with
  | EmptyString => Some acc
  | String c s' =>
      match digit_value c with
      | Some d => if d <? base then int_digits base (acc * base + d) s' else None
      | None => None
      end
  end.

(** [int(s, base)] on a string of digits; anything else is a
    [ValueError].  (Signs, blanks and prefixes, which Python also accepts,
    do not occur in a token of a line that passed the format test.) *)
Definition int_of (base : Z) (s : string) : result Z :=
  match s with
  | EmptyString => Raise ValueError
  | _ => match int_digits base 0 s with
         | Some z => Ok z
         | None => Raise ValueError
         end
  end.

(** [l[i]] for a Python list and a natural index. *)
Definition item {A} (l : list A) (i : nat) : result A :=
  match nth_error l i with
  | Some x => Ok x
  | None => Raise IndexError
  end.

(** [l[i]] for a Python list and any integer index: negative indices count
    from the end. *)
Definition py_item {A} (l : list A) (i : Z) : result A :=
  let n := Z.of_nat (length l) in
  if (0 <=? i) && (i <? n) then item l (Z.to_nat i)
  else if (- n <=? i) && (i <? 0) then item l (Z.to_nat (n + i))
  else Raise IndexError.

(** [l.index(x)]: the first position of [x]. *)
Fixpoint list_index (x : Z) (l : list Z) : result nat :=
  match l with
  | [] => Raise ValueError
  | y :: l' => if Z.eqb y x then Ok 0%nat
               else (p <- list_index x l' ;; Ok (S p))
  end.

(** ** Frame access *)

(** [df.iloc[i]]: by position. *)
Definition iloc {R} (df : DataFrame R) (i : Z) : result R := py_item (rows df) i.

(** [df.loc[label]]: by label (labels are unique). *)
Definition loc {R} (df : DataFrame R) (label : Z) : result R :=
  match find (fun lr => Z.eqb (fst lr) label) df with
  | Some lr => Ok (snd lr)
  | None => Raise KeyError
  end.

(** [df.drop(index=label)]. *)
Definition drop {R} (df : DataFrame R) (label : Z) : result (DataFrame R) :=
  if isin label (index df)
  then Ok (filter (fun lr => negb (Z.eqb (fst lr) label)) df)
  else Raise KeyError.

(** [df.empty]. *)
Definition empty {R} (df : DataFrame R) : bool :=
  match df with
  | [] => true
  | _ => false
  end.

(** [StringSeries.isin]. *)
Definition isin_str (s : string) (values : list string) : bool :=
  existsb (String.eqb s) values.

(** [Series.unique]: first occurrences, in order. *)
Fixpoint unique {A} (eqb : A -> A -> bool) (l : list A) : list A :=
  match l with
  | [] => []
  | x :: l' => x :: filter (fun y => negb (eqb x y)) (unique eqb l')
  end.

(** [FILTER_SORT = ['Match', 'Team']]: the order of [sort_values]. *)
Definition sort_key_le (a b : EditedRow) : bool :=
  (Match a <? Match b) || ((Match a =? Match b) && (Team a <=? Team b)).

Fixpoint sort_insert (x : Z * EditedRow) (l : EditedTable) : EditedTable :=
  match l with
  | [] => [x]
  | y :: l' => if sort_key_le (snd x) (snd y) then x :: l
               else y :: sort_insert x l'
  end.

(** [df.sort_values(by=FILTER_SORT)]: rows keep their labels; rows with
    equal keys keep their order. *)
Definition sort_values (df : EditedTable) : EditedTable :=
  fold_right sort_insert [] df.

(** ** Collaborators

    [boards.Finder] / [board.Finder], [format_time], [decoder] and
    [entrylib] are used through their calls only. *)

(** A row handed to [entrylib.Entry]: a raw row or an edited row. *)
Inductive Series : Type :=
| RawSeries (c : Columns)
| EditedSeries (r : EditedRow).

Class Collaborators : Type := {
  board : Type;
  field : Type;
  entry : Type;
  timestamp : Type;
  (* boards.Finder *)
  get_board_by_id : Z -> result board;
  get_board_by_name : string -> result board;
  get_first : board;
  board_name : board -> string;
  (* format_time *)
  display_time : timestamp -> string;
  timestamp_of_int : Z -> timestamp;
  (* decoder.decode *)
  decode : string -> board -> result (list field);
  (* entrylib.Entry(row, finder) *)
  Entry : Series -> result entry
}.

(** ** The importer: [VerificationManager.update] *)

(** Longest prefix of [s] made of characters in [p], and the rest. *)
Fixpoint span (p : ascii -> bool) (s : string) : string * string :=
  match s with
  | EmptyString => (EmptyString, EmptyString)
  | String c s' =>
      if p c then let (a, b) := span p s' in (String c a, b)
      else (EmptyString, s)
  end.

(** A run of characters of [p] whose length satisfies [ok], followed by an
    underscore; returns what follows the underscore. *)
Definition run_then_underscore (p : ascii -> bool) (ok : nat -> bool)
  (s : string) : option string :=
  let (run, rest) := span p s in
  if ok (String.length run) then
    match rest with
    | String "_"%char rest' => Some rest'
    | _ => None
    end
  else None.

Definition opt_bind {A B} (o : option A) (k : A -> option B) : option B :=
  match o with
  | Some a => k a
  | None => None
  end.

(** [matcher.match(entry) is not None] for
    [\d{1,3}_\d{1,4}_[^_]+_[0-9a-f]{8}_[0-9a-f]{8}_([0-9a-f]{4})*_.*].
    No class of a run contains the underscore, so a run matches exactly
    when the longest run has an admitted length and an underscore
    follows; the final [.*] matches whatever is left. *)
Definition matcher_match (entry : string) : bool :=
  match
    opt_bind (run_then_underscore is_digit
                (fun n => (1 <=? n) && (n <=? 3))%nat entry) (fun s1 =>
    opt_bind (run_then_underscore is_digit
                (fun n => (1 <=? n) && (n <=? 4))%nat s1) (fun s2 =>
    opt_bind (run_then_underscore (fun c => negb (Ascii.eqb c "_"))
                (fun n => (1 <=? n))%nat s2) (fun s3 =>
    opt_bind (run_then_underscore is_hex (fun n => (n =? 8))%nat s3) (fun s4 =>
    opt_bind (run_then_underscore is_hex (fun n => (n =? 8))%nat s4) (fun s5 =>
    run_then_underscore is_hex (fun n => (Nat.modulo n 4 =? 0))%nat s5)))))
  with
  | Some _ => true
  | None => false
  end.

(** [read_one]: what is yielded for one line of a file, the line without
    its last comma-separated column. *)
Definition read_one_line (entry : string) : string :=
  join "" (removelast (split "," entry)).

Definition read_one (lines : list string) : list string :=
  map read_one_line lines.

(** [read_all]: the entries of all files, in order, that pass the format
    test, without repetitions. *)
Fixpoint read_all_from (unique_entries : list string) (entries : list string)
  : list string :=
  match entries with
  | [] => unique_entries
  | e :: rest =>
      if matcher_match e && negb (isin_str e unique_entries)
      then read_all_from (unique_entries ++ [e]) rest
      else read_all_from unique_entries rest
  end.

Definition read_all (files : list (list string)) : list string :=
  read_all_from [] (flat_map read_one files).

Section Importer.
Context `{C : Collaborators}.

(** [make_columns]. *)
Definition make_columns (entry : string) : result Columns :=
  let split_ := split "_" entry in
  s0 <- item split_ 0 ;; m <- int_of 10 s0 ;;
  s1 <- item split_ 1 ;; t <- int_of 10 s1 ;;
  n <- item split_ 2 ;;
  s3 <- item split_ 3 ;; st <- int_of 16 s3 ;;
  s4 <- item split_ 4 ;; bid <- int_of 16 s4 ;;
  b <- get_board_by_id bid ;;
  d <- item split_ 5 ;;
  c <- item split_ 6 ;;
  Ok {| Match := m; Team := t; Name := n;
        StartTime := display_time (timestamp_of_int st);
        Board := board_name b;
        Data := d;
        Comments := c |}.

(** [pd.DataFrame([make_columns(e) for e in read_all()])]. *)
Fixpoint make_all (entries : list string) : result RawTable :=
  match entries with
  | [] => Ok []
  | e :: rest => r <- make_columns e ;; rs <- make_all rest ;; Ok (r :: rs)
  end.
End Importer.

(** ** [VerificationManager] *)

Record VerificationManager : Type := {
  raw_entries : RawTable;
  edited_entries : EditedTable
}.

(** The column [RawIndex] is numeric: it holds integers (int64) as long
    as no value is missing, and floats (float64) as soon as one is, for
    NaN is a float; so it is after [read_sql] of a column with a NULL, and
    after [concat] with the row of [append]. *)
Definition float_column (edited : EditedTable) : bool :=
  existsb (fun r => match RawIndex r with
                    | None => true
                    | Some _ => false
                    end) (rows edited).

(** [raw_entries.iloc[key]] for a key read from a column: a float key,
    whatever its value, raises [TypeError]. *)
Definition iloc_key (is_float : bool) (raw : RawTable) (key : Z)
  : result Columns :=
  if is_float then Raise TypeError else py_item raw key.

(** [i in raw_entries.index], a [RangeIndex]. *)
Definition in_range_index (i : Z) (raw : RawTable) : bool :=
  (0 <=? i) && (i <? Z.of_nat (length raw)).

(** [match_row] / [get_matching_row]. *)
Definition match_row (edited : EditedTable) (match_ team : Z) (name : string)
  : EditedTable :=
  filter (fun lr : Z * EditedRow =>
            (Match (snd lr) =? match_) && (Team (snd lr) =? team)
            && String.eqb (Name (snd lr)) name) edited.

Section Manager.
Context `{C : Collaborators}.

(** [update]: replaces the raw table by the import and merges. *)
Definition update (self : VerificationManager) (files : list (list string))
  : result VerificationManager :=
  raw <- make_all (read_all files) ;;
  Ok {| raw_entries := raw;
        edited_entries := merge raw (edited_entries self) |}.

(** [__getitem__].  The value [row["RawIndex"]] is an integer or a float
    as the column is ([float_column]); the test [in raw_entries.index]
    is by value, and [raw_entries.iloc[...]] takes an integer only. *)
Definition getitem (self : VerificationManager) (index_ : Z)
  : result (option entry * entry * string) :=
  if isin index_ (index (edited_entries self)) then
    row <- iloc (edited_entries self) index_ ;;
    raw <- match RawIndex row with
           | Some ri =>
               if in_range_index ri (raw_entries self)
               then (r <- iloc_key (float_column (edited_entries self))
                                   (raw_entries self) ri ;;
                     e <- Entry (RawSeries r) ;; Ok (Some e))
               else Ok None
           | None => Ok None
           end ;;
    edited <- Entry (EditedSeries row) ;;
    Ok (raw, edited, Edited row)
  else Raise IndexError.

(** What [__getitem__] does for a row of the edited table once it has
    read it: the entry of its raw row if it has one (or the [TypeError] of
    a float position), its own entry and its edit time. *)
Definition decoded_entry (self : VerificationManager) (row : EditedRow)
  : result (option entry * entry * string) :=
  raw <- match RawIndex row with
         | Some ri =>
             if in_range_index ri (raw_entries self)
             then (r <- iloc_key (float_column (edited_entries self))
                                 (raw_entries self) ri ;;
                   e <- Entry (RawSeries r) ;; Ok (Some e))
             else Ok None
         | None => Ok None
         end ;;
  edited <- Entry (EditedSeries row) ;;
  Ok (raw, edited, Edited row).

(** The row built by [append] for a new entry at time [now]. *)
Definition appended_row (now : timestamp) (match_ team : Z) (name : string)
  : EditedRow :=
  {| RawIndex := None;
     cols := {| Match := match_; Team := team; Name := name;
                StartTime := display_time now;
                Board := board_name get_first;
                Data := "";
                Comments := "" |};
     Edited := "" |}.

(** [append(match=..., team=..., name=...)], with the reading [now] of
    the clock: the value returned (or the exception) and the manager
    after the call.  The keys are integers of the 64-bit range of the
    columns [Match] and [Team]; what pandas does to a column that is
    given a greater number is not modelled. *)
Definition append (self : VerificationManager) (now : timestamp)
  (match_ team : Z) (name : string)
  : result (option entry * entry * string) * VerificationManager :=
  let matching_row := match_row (edited_entries self) match_ team name in
  if empty matching_row then
    let self' :=
      {| raw_entries := raw_entries self;
         edited_entries :=
           concat_ignore_index (edited_entries self)
             [appended_row now match_ team name] |} in
    (i <- item (index (match_row (edited_entries self') match_ team name)) 0 ;;
     getitem self' i,
     self')
  else
    (i <- item (index matching_row) 0 ;; getitem self i, self).
End Manager.

(** ** Criteria of [filter] and [search]

    The keyword arguments, by their capitalised names; [None] is a
    keyword that was not given. *)
Record Criteria (V : Type) : Type := {
  by_match : option (list V);
  by_team : option (list V);
  by_name : option (list string);
  by_board : option (list string);
  by_edited : option (list string)
}.

Arguments by_match {V} _.
Arguments by_team {V} _.
Arguments by_name {V} _.
Arguments by_board {V} _.
Arguments by_edited {V} _.

Definition no_criteria {V} : Criteria V :=
  {| by_match := None; by_team := None; by_name := None;
     by_board := None; by_edited := None |}.

(** [if kwargs[k]]: a keyword is kept when its value is truthy, that is
    a list that is not empty. *)
Definition truthy {A} (v : option (list A)) : option (list A) :=
  match v with
  | Some (_ :: _) => v
  | _ => None
  end.

(** [results[results[col].isin(values)]] when the rule is present. *)
Definition keep_isin {A} (rule : option (list A)) (col : EditedRow -> A)
  (mem : A -> list A -> bool) (df : EditedTable) : EditedTable :=
  match rule with
  | Some values => filter (fun lr => mem (col (snd lr)) values) df
  | None => df
  end.

(** The available values of a column that some given value selects. *)
Definition possible {A B} (eqb : A -> A -> bool) (selects : A -> B -> bool)
  (col : EditedRow -> A) (given : list B) (df : EditedTable) : list A :=
  filter (fun available => existsb (selects available) given)
         (unique eqb (map col (rows df))).

(** Python's [str.lower()], on strings given by their UTF-8 bytes.  Its
    table of letters is that of Unicode and is taken as given.  (A string
    occurs in another, or starts it, as code points exactly when its bytes
    do.) *)
Class Unicode : Type := {
  str_lower : string -> string
}.

(** [VerificationManager.search]. *)
Definition search `{U : Unicode} (edited : EditedTable) (kwargs : Criteria pyval)
  : EditedTable :=
  let rule_match := truthy (by_match kwargs) in
  let rule_team := truthy (by_team kwargs) in
  let rule_name := truthy (by_name kwargs) in
  let rule_board := truthy (by_board kwargs) in
  let rule_edited := truthy (by_edited kwargs) in
  let rule_match :=
    option_map (fun matches =>
      possible Z.eqb (fun available m => startswith (str_of_int available) (str m))
               (fun r => Match r) matches edited) rule_match in
  let rule_team :=
    option_map (fun teams =>
      possible Z.eqb (fun available t => startswith (str_of_int available) (str t))
               (fun r => Team r) teams edited) rule_team in
  let rule_name :=
    option_map (fun names =>
      possible String.eqb
               (fun available n => contains (str_lower n) (str_lower available))
               (fun r => Name r) names edited) rule_name in
  let results := edited in
  let results := keep_isin rule_match (fun r => Match r) isin results in
  let results := keep_isin rule_team (fun r => Team r) isin results in
  let results := keep_isin rule_name (fun r => Name r) isin_str results in
  let results := keep_isin rule_board (fun r => Board r) isin_str results in
  let results := keep_isin rule_edited (fun r => Edited r) isin_str results in
  sort_values results.

(** ** [EntryManager] *)

(** A row of a filtered table: the former label in the column [index],
    then the columns of [FILTER_HEADER]. *)
Record FilteredRow : Type := {
  index_col : Z;
  Match_col : Z;
  Team_col : Z;
  Name_col : string;
  Board_col : string;
  Edited_col : string
}.

Definition filtered_row (lr : Z * EditedRow) : FilteredRow :=
  {| index_col := fst lr;
     Match_col := Match (snd lr); Team_col := Team (snd lr);
     Name_col := Name (snd lr); Board_col := Board (snd lr);
     Edited_col := Edited (snd lr) |}.

(** [EntryManager.filter]. *)
Definition filter_entries (edited_data : EditedTable) (filters : Criteria Z)
  : list FilteredRow :=
  let df := edited_data in
  let df := keep_isin (by_match filters) (fun r => Match r) isin df in
  let df := keep_isin (by_team filters) (fun r => Team r) isin df in
  let df := keep_isin (by_name filters) (fun r => Name r) isin_str df in
  let df := keep_isin (by_board filters) (fun r => Board r) isin_str df in
  let df := keep_isin (by_edited filters) (fun r => Edited r) isin_str df in
  map filtered_row (sort_values df).

(** [data_row_at]. *)
Definition data_row_at (edited_data : EditedTable) (index_ : Z)
  : result (option EditedRow) :=
  if isin index_ (index edited_data)
  then (row <- iloc edited_data index_ ;; Ok (Some row))
  else Ok None.

Section Entries.
Context `{C : Collaborators}.

(** The dictionary returned by [entry_at]. *)
Record EntryInfo : Type := {
  info_Match : Z;
  info_Team : Z;
  info_Name : string;
  info_StartTime : string;
  info_Comments : string;
  info_Board : string;
  info_Data : list field
}.

(** [entry_at]: [Ok None] is the empty dictionary. *)
Definition entry_at (edited_data : EditedTable) (index_ : Z)
  : result (option EntryInfo) :=
  row <- data_row_at edited_data index_ ;;
  match row with
  | Some row =>
      entry_board <- get_board_by_name (Board row) ;;
      data <- decode (Data row) entry_board ;;
      Ok (Some {| info_Match := Match row; info_Team := Team row;
                  info_Name := Name row; info_StartTime := StartTime row;
                  info_Comments := Comments row;
                  info_Board := board_name entry_board;
                  info_Data := data |})
  | None => Ok None
  end.

(** [get_relative_entry]. *)
Definition get_relative_entry (edited_data : EditedTable)
  (filtered_table : list FilteredRow) (current_index increment_by : Z)
  : result (option EntryInfo) :=
  let indices := map index_col filtered_table in
  if negb (length indices =? 0)%nat then
    if isin current_index indices then
      p <- list_index current_index indices ;;
      i <- py_item indices
             ((Z.of_nat p + increment_by) mod Z.of_nat (length indices)) ;;
      entry_at edited_data i
    else
      i <- py_item indices 0 ;; entry_at edited_data i
  else Ok None.

Definition next (edited_data : EditedTable) (filtered_table : list FilteredRow)
  (current_index : Z) : result (option EntryInfo) :=
  get_relative_entry edited_data filtered_table current_index 1.

Definition previous (edited_data : EditedTable)
  (filtered_table : list FilteredRow) (current_index : Z)
  : result (option EntryInfo) :=
  get_relative_entry edited_data filtered_table current_index (-1).

(** [add_entry]: [Ok None] is Python's [None]. *)
Definition add_entry (edited_data : EditedTable) (match_ team : Z)
  (name : string) : result (option (option EntryInfo)) :=
  let matching_row := match_row edited_data match_ team name in
  if empty matching_row then Ok None
  else (i <- item (index matching_row) 0 ;;
        e <- entry_at edited_data i ;; Ok (Some e)).
End Entries.

(** [remove_entry]: the table after the call, or the exception. *)
Definition remove_entry (edited_data : EditedTable) (match_ team name : pyval)
  (index_value : Z) : result EditedTable :=
  row_m <- loc edited_data index_value ;;
  let match_at_index := str_of_int (Match row_m) in
  row_t <- loc edited_data index_value ;;
  let team_at_index := str_of_int (Team row_t) in
  row_n <- loc edited_data index_value ;;
  let name_at_index := Name row_n in
  let match_correct := str_eq match_at_index match_ in
  let team_correct := str_eq team_at_index team in
  let name_correct := str_eq name_at_index name in
  if match_correct && team_correct && name_correct
  then drop edited_data index_value
  else Ok edited_data.

(** ** The specification of [search]

    Written from the description of the operation, to be compared with
    [search]: a row is kept when, for each field given with at least one
    value, some given value matches the row; a field that is not given, or
    given without a value, does not constrain the row. *)
Definition some_value_matches {A} (given : option (list A)) (p : A -> bool)
  : bool :=
  match given with
  | Some (v :: l) => existsb p (v :: l)
  | _ => true
  end.

Definition relaxed_match `{U : Unicode} (kwargs : Criteria pyval) (r : EditedRow)
  : bool :=
  some_value_matches (by_match kwargs)
    (fun m => startswith (str_of_int (Match r)) (str m)) &&
  some_value_matches (by_team kwargs)
    (fun t => startswith (str_of_int (Team r)) (str t)) &&
  some_value_matches (by_name kwargs)
    (fun n => contains (str_lower n) (str_lower (Name r))) &&
  some_value_matches (by_board kwargs) (String.eqb (Board r)) &&
  some_value_matches (by_edited kwargs) (String.eqb (Edited r)).

(** Ascending by (Match, Team). *)
Definition match_team_le (a b : EditedRow) : Prop :=
  Match a < Match b \/ (Match a = Match b /\ Team a <= Team b).

Definition rows_le (a b : Z * EditedRow) : Prop := match_team_le (snd a) (snd b).

(** Criteria that give only teams. *)
Definition only_team (teams : option (list pyval)) : Criteria pyval :=
  {| by_match := None; by_team := teams; by_name := None;
     by_board := None; by_edited := None |}.

(** ** Sample data *)

(** A registry with the single board "Comp" (id 1), a clock that displays
    the number of seconds, a decoder that returns the token as one field,
    and entries that are the rows themselves. *)
#[local] Instance sample_collaborators : Collaborators := {|
  board := string;
  field := string;
  entry := Series;
  timestamp := Z;
  get_board_by_id := fun i => if i =? 1 then Ok "Comp" else Raise CollaboratorError;
  get_board_by_name := fun n => Ok n;
  get_first := "Comp";
  board_name := fun b => b;
  display_time := str_of_int;
  timestamp_of_int := fun z => z;
  decode := fun d _ => Ok [d];
  Entry := fun s => Ok s
|}.

Definition sample_columns (m t : Z) (n : string) : Columns :=
  {| Match := m; Team := t; Name := n; StartTime := "0"; Board := "Comp";
     Data := "00ff"; Comments := "" |}.

Definition sample_raw : RawTable :=
  [sample_columns 5 200 "Sam"; sample_columns 6 20 "Ann";
   sample_columns 7 2001 "Bob"].

(** A table with labels 0, 1, 2: two rows of raw origin and one appended
    by hand. *)
Definition sample_edited : EditedTable :=
  [(0, {| RawIndex := Some 0; cols := sample_columns 5 200 "Sam"; Edited := " " |});
   (1, {| RawIndex := Some 1; cols := sample_columns 6 20 "Ann"; Edited := " " |});
   (2, {| RawIndex := None; cols := sample_columns 9 120 "Eve"; Edited := "" |})].

(** The same table after the row labelled 1 was dropped: labels 0 and 2. *)
Definition sample_dropped : EditedTable :=
  [(0, {| RawIndex := Some 0; cols := sample_columns 5 200 "Sam"; Edited := " " |});
   (2, {| RawIndex := None; cols := sample_columns 9 120 "Eve"; Edited := "" |})].

Definition sample_manager : VerificationManager :=
  {| raw_entries := sample_raw; edited_entries := sample_edited |}.

(** A filtered view with the identities 10, 11 and 12. *)
Definition sample_view : list FilteredRow :=
  map (fun i => {| index_col := i; Match_col := 5; Team_col := 200;
                   Name_col := "Sam"; Board_col := "Comp"; Edited_col := " " |})
      [10; 11; 12].

(** ** Further code of the two managers *)

(** [list_files]: the test [f.split(".")[-1].lower() == "csv"] on a file
    name. *)
Definition is_csv_file (f : string) : bool :=
  String.eqb (lower (last (split "." f) EmptyString)) "csv".

(** [s] without the characters [c]. *)
Fixpoint delete_char (c : ascii) (s : string) : string :=
  match s with
  | EmptyString => EmptyString
  | String a s' =>
      if Ascii.eqb a c then delete_char c s' else String a (delete_char c s')
  end.

(** The attributes of an entry object that [__setitem__] reads, and its
    method [encode]. *)
Class EntryObject `{C : Collaborators} : Type := {
  encode : entry -> result entry;
  entry_match : entry -> Z;
  entry_team : entry -> Z;
  entry_name : entry -> string;
  entry_start_time : entry -> string;
  entry_comments : entry -> string;
  entry_encoded_data : entry -> string
}.

(** [df.at[label, col] = v] for the columns written by one call: the row
    of that label is replaced by [f] of it. *)
Definition at_set {R} (df : DataFrame R) (label : Z) (f : R -> R) : DataFrame R :=
  map (fun lr => if Z.eqb (fst lr) label then (fst lr, f (snd lr)) else lr) df.

Section SetItem.
Context `{O : EntryObject}.

(** The row after the seven assignments of [__setitem__]. *)
Definition set_row (value : entry) (edited_at : string) (row : EditedRow)
  : EditedRow :=
  {| RawIndex := RawIndex row;
     cols := {| Match := entry_match value;
                Team := entry_team value;
                Name := entry_name value;
                StartTime := entry_start_time value;
                Board := Board row;
                Data := entry_encoded_data value;
                Comments := entry_comments value |};
     Edited := edited_at |}.

(** [__setitem__], with the reading [now] of the clock. *)
Definition setitem (self : VerificationManager) (index_ : Z) (value : entry)
  (now : timestamp) : result VerificationManager :=
  if isin index_ (index (edited_entries self)) then
    value' <- encode value ;;
    Ok {| raw_entries := raw_entries self;
          edited_entries :=
            at_set (edited_entries self) index_
                   (set_row value' (display_time now)) |}
  else Raise IndexError.
End SetItem.

(** [EntryManager.__init__], after the two tables were read: [stored] is
    the table EDITED_ENTRIES, if the database has one. *)
Definition init_edited (original_data : RawTable) (stored : option EditedTable)
  : EditedTable :=
  match stored with
  | Some edited_data => merge original_data edited_data
  | None =>
      map (fun ir => (fst ir, {| RawIndex := Some (fst ir); cols := snd ir;
                                 Edited := " " |}))
          (reset_index original_data)
  end.

(** The row that merge builds for the raw row [r] at position [i]. *)
Definition unedited (i : Z) (r : Columns) : EditedRow :=
  {| RawIndex := Some i; cols := r; Edited := " " |}.

(** What [filter] is to keep: for each field that is given, the value of
    the row is one of the given values. *)
Definition one_of {A} (mem : A -> list A -> bool) (given : option (list A))
  (x : A) : bool :=
  match given with
  | Some values => mem x values
  | None => true
  end.

Definition exact_match (filters : Criteria Z) (r : EditedRow) : bool :=
  one_of isin (by_match filters) (Match r) &&
  one_of isin (by_team filters) (Team r) &&
  one_of isin_str (by_name filters) (Name r) &&
  one_of isin_str (by_board filters) (Board r) &&
  one_of isin_str (by_edited filters) (Edited r).

(** Ascending by (Match, Team), on the rows of a filtered table. *)
Definition filtered_le (a b : FilteredRow) : Prop :=
  Match_col a < Match_col b \/
  (Match_col a = Match_col b /\ Team_col a <= Team_col b).

(** Entries that are rows, read through their columns. *)
#[local] Instance sample_entry_object : @EntryObject sample_collaborators := {|
  encode := fun e => Ok e;
  entry_match := fun e => match e with
                          | RawSeries c => Match c
                          | EditedSeries r => Match r
                          end;
  entry_team := fun e => match e with
                         | RawSeries c => Team c
                         | EditedSeries r => Team r
                         end;
  entry_name := fun e => match e with
                         | RawSeries c => Name c
                         | EditedSeries r => Name r
                         end;
  entry_start_time := fun e => match e with
                               | RawSeries c => StartTime c
                               | EditedSeries r => StartTime r
                               end;
  entry_comments := fun e => match e with
                             | RawSeries c => Comments c
                             | EditedSeries r => Comments r
                             end;
  entry_encoded_data := fun e => match e with
                                 | RawSeries c => Data c
                                 | EditedSeries r => Data r
                                 end
|}.

(** A table whose labels are not its positions. *)
Definition sample_swapped : EditedTable :=
  [(1, {| RawIndex := Some 0; cols := sample_columns 5 200 "Sam"; Edited := " " |});
   (0, {| RawIndex := Some 1; cols := sample_columns 6 20 "Ann"; Edited := " " |})].

(** The lines of the grammar: seven tokens. *)
Definition grammar_line (e m t n st bd d c : string) : Prop :=
  e = (m ++ "_" ++ t ++ "_" ++ n ++ "_" ++ st ++ "_" ++ bd ++ "_"
         ++ d ++ "_" ++ c)%string /\
  (all_chars is_digit m = true /\ (1 <= String.length m <= 3)%nat) /\
  (all_chars is_digit t = true /\ (1 <= String.length t <= 4)%nat) /\
  (free_of "_" n = true /\ (1 <= String.length n)%nat) /\
  (all_chars is_hex st = true /\ String.length st = 8%nat) /\
  (all_chars is_hex bd = true /\ String.length bd = 8%nat) /\
  (all_chars is_hex d = true /\ Nat.modulo (String.length d) 4 = 0%nat).

(** A registry that knows one board under every id. *)
Definition sample_total_registry : Collaborators := {|
  board := string;
  field := string;
  entry := Series;
  timestamp := Z;
  get_board_by_id := fun _ => Ok "Comp";
  get_board_by_name := fun n => Ok n;
  get_first := "Comp";
  board_name := fun b => b;
  display_time := str_of_int;
  timestamp_of_int := fun z => z;
  decode := fun d _ => Ok [d];
  Entry := fun s => Ok s
|}.

(** One file of two lines, the second with an unknown format. *)
Definition sample_files : list (list string) :=
  [["5_200_Sam_0000001e_00000001_00ff_hello,2018-03-01";
    "not an entry,2018-03-01"]].

(** An entry to write, and a reading of the clock. *)
Definition sample_value : @entry sample_collaborators :=
  EditedSeries (unedited 0 (sample_columns 8 300 "Zed")).

Definition sample_now : @timestamp sample_collaborators := 77.

(** The sample manager after writing the sample entry at label 1. *)
Definition sample_written : VerificationManager :=
  {| raw_entries := sample_raw;
     edited_entries :=
       at_set sample_edited 1 (set_row sample_value (display_time sample_now)) |}.

(** The sample manager before any row was appended by hand. *)
Definition sample_imported : VerificationManager :=
  {| raw_entries := sample_raw; edited_entries := firstn 2 sample_edited |}.



(** The letters of the sample names are ASCII letters. *)
#[local] Instance sample_unicode : Unicode := {| str_lower := lower |}.

(** The sample table after the row labelled 0 was dropped: labels 1, 2. *)
Definition sample_removed_first : EditedTable :=
  [(1, {| RawIndex := Some 1; cols := sample_columns 6 20 "Ann"; Edited := " " |});
   (2, {| RawIndex := None; cols := sample_columns 9 120 "Eve"; Edited := "" |})].

(** [s] is made of ASCII characters. *)
Definition ascii_only (s : string) : bool :=
  all_chars (fun c => (nat_of_ascii c <? 128)%nat) s.

(** * Proofs *)

(** Deciding an integer comparison from the context. *)
Ltac zb_true t :=
  replace t with true
    by (symmetry; first [apply Z.leb_le | apply Z.ltb_lt | apply Z.eqb_eq]; lia).
Ltac zb_false t :=
  replace t with false
    by (symmetry; first [apply Z.leb_gt | apply Z.ltb_ge | apply Z.eqb_neq]; lia).

Section Enumerate.
Context {A : Type}.

Lemma enumerate_from_rows (l : list A) (n : Z) :
  map snd (enumerate_from n l) = l.
Proof.
  revert n; induction l as [|x l IH]; intros n; simpl; [reflexivity|].
  now rewrite IH.
Qed.

Lemma enumerate_from_length (l : list A) (n : Z) :
  length (enumerate_from n l) = length l.
Proof.
  revert n; induction l as [|x l IH]; intros n; simpl; [reflexivity|].
  now rewrite IH.
Qed.

Lemma enumerate_from_app (l1 l2 : list A) (n : Z) :
  enumerate_from n (l1 ++ l2) =
  enumerate_from n l1 ++ enumerate_from (n + Z.of_nat (length l1)) l2.
Proof.
  revert n; induction l1 as [|x l1 IH]; intros n; simpl.
  - now replace (n + 0) with n by lia.
  - rewrite IH. do 3 f_equal. lia.
Qed.

Lemma enumerate_from_nth (l : list A) (n : Z) (i : nat) (x : A) :
  nth_error l i = Some x ->
  nth_error (enumerate_from n l) i = Some (n + Z.of_nat i, x).
Proof.
  revert n i; induction l as [|y l IH]; intros n [|i] H; simpl in *;
    try discriminate.
  - inversion H; subst. do 2 f_equal. lia.
  - rewrite (IH (n + 1) i H). do 2 f_equal. lia.
Qed.

Lemma enumerate_from_In (l : list A) (n i : Z) (x : A) :
  In (i, x) (enumerate_from n l) ->
  n <= i < n + Z.of_nat (length l) /\ nth_error l (Z.to_nat (i - n)) = Some x.
Proof.
  revert n; induction l as [|y l IH]; intros n H; simpl in H; [contradiction|].
  destruct H as [H|H].
  - inversion H; subst. replace (i - i) with 0 by lia. simpl. split; [lia|reflexivity].
  - apply IH in H. destruct H as [Hr Hn]. split; [simpl length; lia|].
    replace (Z.to_nat (i - n)) with (S (Z.to_nat (i - (n + 1)))) by lia.
    exact Hn.
Qed.

Lemma rows_reset_index (l : list A) : rows (reset_index l) = l.
Proof. apply enumerate_from_rows. Qed.

Lemma reset_index_range_indexed (l : list A) : range_indexed (reset_index l).
Proof. unfold range_indexed. now rewrite rows_reset_index. Qed.
End Enumerate.

Lemma isin_true (x : Z) (l : list Z) : isin x l = true <-> In x l.
Proof.
  unfold isin. rewrite existsb_exists. split.
  - intros [y [Hy He]]. apply Z.eqb_eq in He. now subst.
  - intros H. exists x. split; [assumption|apply Z.eqb_refl].
Qed.

Lemma dropna_In (z : Z) (l : list (option Z)) : In z (dropna l) <-> In (Some z) l.
Proof.
  induction l as [|[y|] l IH]; simpl.
  - tauto.
  - rewrite IH. split; (intros [H|H]; [left; congruence | right; assumption]).
  - rewrite IH. split; [tauto|]. intros [H|H]; [discriminate|assumption].
Qed.

Lemma dropna_app (l1 l2 : list (option Z)) :
  dropna (l1 ++ l2) = dropna l1 ++ dropna l2.
Proof.
  induction l1 as [|[y|] l1 IH]; simpl; [reflexivity| |assumption].
  now rewrite IH.
Qed.

Lemma filter_nil_iff {A} (f : A -> bool) (l : list A) :
  (forall x, In x l -> f x = false) -> filter f l = [].
Proof.
  induction l as [|x l IH]; intros H; simpl; [reflexivity|].
  rewrite (H x (or_introl eq_refl)). apply IH. intros y Hy. apply H. now right.
Qed.

Lemma rows_merge (raw : RawTable) (edited : EditedTable) :
  rows (merge raw edited) = rows edited ++ new_data raw edited.
Proof. unfold merge, concat_ignore_index. apply rows_reset_index. Qed.

(** After a merge every raw index is referenced. *)
Lemma merge_references_all (raw : RawTable) (edited : EditedTable) (ir : Z * Columns) :
  In ir (reset_index raw) ->
  isin (fst ir) (referenced (merge raw edited)) = true.
Proof.
  intros Hin. apply isin_true. unfold referenced.
  rewrite rows_merge, map_app, dropna_app. apply in_or_app.
  destruct (isin (fst ir) (referenced edited)) eqn:E.
  - left. now apply isin_true.
  - right. apply dropna_In. unfold new_data. rewrite map_map. apply in_map_iff.
    exists ir. split; [reflexivity|]. apply filter_In. now rewrite E.
Qed.

Lemma new_data_after_merge (raw : RawTable) (edited : EditedTable) :
  new_data raw (merge raw edited) = [].
Proof.
  unfold new_data. rewrite filter_nil_iff; [reflexivity|].
  intros ir Hin. now rewrite merge_references_all.
Qed.

(** C1: merge is idempotent.  A second merge with the same raw table finds
    no unreferenced raw row, so it appends nothing, and the edited table it
    leaves is the table left by the first merge. *)
Theorem merge_idempotent (raw : RawTable) (edited : EditedTable) :
  new_data raw (merge raw edited) = [] /\
  length (merge raw (merge raw edited)) = length (merge raw edited) /\
  merge raw (merge raw edited) = merge raw edited.
Proof.
  assert (E : merge raw (merge raw edited) = merge raw edited).
  { unfold merge at 1. unfold concat_ignore_index.
    rewrite new_data_after_merge, app_nil_r.
    unfold merge, concat_ignore_index. now rewrite rows_reset_index. }
  split; [apply new_data_after_merge|]. split; [now rewrite E|exact E].
Qed.

(** ** Preservation *)

Lemma merge_appends (raw : RawTable) (edited : EditedTable) :
  merge raw edited =
  reset_index (rows edited) ++
  enumerate_from (Z.of_nat (length edited)) (new_data raw edited).
Proof.
  unfold merge, concat_ignore_index, reset_index.
  rewrite enumerate_from_app. unfold rows. now rewrite length_map.
Qed.

Lemma range_indexed_nth {R} (df : DataFrame R) (i : nat) (l : Z) (r : R) :
  range_indexed df -> nth_error df i = Some (l, r) -> l = Z.of_nat i.
Proof.
  intros Hc Hn. assert (Hr : nth_error (rows df) i = Some r).
  { unfold rows. now rewrite nth_error_map, Hn. }
  apply (enumerate_from_nth _ 0) in Hr. fold (reset_index (rows df)) in Hr.
  rewrite <- Hc, Hn in Hr. now inversion Hr.
Qed.

(** C2: merge preserves the rows that were there.  A row at position [i] of
    the edited table is at position [i] of the merged table with the same
    field values; the merged table is the old rows followed by the appended
    ones, its labels being the positions ([ignore_index=True]), so on a
    table whose labels are its positions the label is kept as well. *)
Theorem merge_preserves_rows
  (raw : RawTable) (edited : EditedTable) (i : nat) (l : Z) (r : EditedRow) :
  nth_error edited i = Some (l, r) ->
  nth_error (merge raw edited) i = Some (Z.of_nat i, r) /\
  (range_indexed edited -> nth_error (merge raw edited) i = Some (l, r)) /\
  rows (merge raw edited) = rows edited ++ new_data raw edited /\
  merge raw edited =
    reset_index (rows edited) ++
    enumerate_from (Z.of_nat (length edited)) (new_data raw edited).
Proof.
  intros Hn.
  assert (Hi : nth_error (merge raw edited) i = Some (Z.of_nat i, r)).
  { rewrite merge_appends. rewrite nth_error_app1.
    - unfold reset_index. rewrite (enumerate_from_nth _ 0 i r); [reflexivity|].
      unfold rows. now rewrite nth_error_map, Hn.
    - unfold reset_index, rows. rewrite enumerate_from_length, length_map.
      apply nth_error_Some. now rewrite Hn. }
  split; [exact Hi|]. split; [|split; [apply rows_merge|apply merge_appends]].
  intros Hc. now rewrite (range_indexed_nth edited i l r Hc Hn).
Qed.

(** ** Coverage *)

Lemma refs_to_app (i : Z) (l1 l2 : list EditedRow) :
  refs_to i (l1 ++ l2) = (refs_to i l1 + refs_to i l2)%nat.
Proof. unfold refs_to. now rewrite filter_app, length_app. Qed.

Lemma refs_to_zero (i : Z) (l : list EditedRow) :
  isin i (dropna (map RawIndex l)) = false -> refs_to i l = 0%nat.
Proof.
  intros H. unfold refs_to. rewrite filter_nil_iff; [reflexivity|].
  intros r Hr. destruct (RawIndex r) as [j|] eqn:E; [|reflexivity].
  destruct (Z.eqb_spec i j) as [->|]; [|reflexivity].
  assert (Hin : isin j (dropna (map RawIndex l)) = true).
  { apply isin_true, dropna_In. rewrite <- E. now apply in_map. }
  congruence.
Qed.

Lemma refs_to_pos (i : Z) (l : list EditedRow) :
  isin i (dropna (map RawIndex l)) = true -> (1 <= refs_to i l)%nat.
Proof.
  intros H. apply isin_true, dropna_In, in_map_iff in H.
  destruct H as [r [Hr Hin]]. unfold refs_to.
  induction l as [|x l IH]; [contradiction|]. simpl.
  destruct Hin as [->|Hin].
  - rewrite Hr, Z.eqb_refl. simpl. lia.
  - specialize (IH Hin). destruct (RawIndex x) as [j|]; [|exact IH].
    destruct (i =? j); simpl; lia.
Qed.

(** The rows built from [enumerate_from n raw] refer to [i] once when [i]
    is one of the labels and passes the filter, and never otherwise. *)
Lemma refs_to_new_rows (i n : Z) (raw : RawTable) (refd : list Z) :
  refs_to i
    (map (fun ir => {| RawIndex := Some (fst ir); cols := snd ir; Edited := " " |})
       (filter (fun ir : Z * Columns => negb (isin (fst ir) refd))
          (enumerate_from n raw))) =
  if (n <=? i) && (i <? n + Z.of_nat (length raw)) && negb (isin i refd)
  then 1%nat else 0%nat.
Proof.
  revert n; induction raw as [|x raw IH]; intros n.
  - simpl. replace (n + 0) with n by lia.
    destruct (n <=? i) eqn:E1, (i <? n) eqn:E2; simpl; try reflexivity; lia.
  - cbn [enumerate_from filter fst]. 
    replace (n + Z.of_nat (length (x :: raw)))
      with (n + 1 + Z.of_nat (length raw)) by (simpl length; lia).
    destruct (Z.eq_dec i n) as [->|Hne].
    + destruct (isin n refd) eqn:E; cbn [negb].
      * rewrite IH. zb_false (n + 1 <=? n).
        now rewrite !andb_false_r.
      * cbn [map]. unfold refs_to in *. cbn [filter RawIndex fst].
        rewrite Z.eqb_refl. cbn [length]. rewrite IH.
        zb_false (n + 1 <=? n). cbn [andb].
        zb_true (n <=? n).
        zb_true (n <? n + 1 + Z.of_nat (length raw)).
        reflexivity.
    + assert (Hx : refs_to i
                (map (fun ir => {| RawIndex := Some (fst ir); cols := snd ir; Edited := " " |})
                   (if negb (isin n refd)
                    then (n, x) :: filter (fun ir : Z * Columns => negb (isin (fst ir) refd))
                                     (enumerate_from (n + 1) raw)
                    else filter (fun ir : Z * Columns => negb (isin (fst ir) refd))
                           (enumerate_from (n + 1) raw))) =
              refs_to i
                (map (fun ir => {| RawIndex := Some (fst ir); cols := snd ir; Edited := " " |})
                   (filter (fun ir : Z * Columns => negb (isin (fst ir) refd))
                      (enumerate_from (n + 1) raw)))).
      { destruct (negb (isin n refd)); [|reflexivity].
        cbn [map]. unfold refs_to. cbn [filter RawIndex fst].
        now zb_false (i =? n). }
      rewrite Hx, IH.
      replace (n <=? i) with (n + 1 <=? i) by lia. reflexivity.
Qed.

(** C3: merge establishes coverage.  If no raw index is referenced by more
    than one edited row before the merge, then after it every index of the
    raw table is referenced by exactly one edited row. *)
Theorem merge_coverage (raw : RawTable) (edited : EditedTable) :
  (forall i, 0 <= i < Z.of_nat (length raw) ->
             (refs_to i (rows edited) <= 1)%nat) ->
  forall i, 0 <= i < Z.of_nat (length raw) ->
            refs_to i (rows (merge raw edited)) = 1%nat.
Proof.
  intros Hle i Hi. rewrite rows_merge, refs_to_app.
  unfold new_data, reset_index. rewrite refs_to_new_rows.
  zb_true (0 <=? i).
  zb_true (i <? 0 + Z.of_nat (length raw)). cbn [andb].
  unfold referenced. destruct (isin i (dropna (map RawIndex (rows edited)))) eqn:E.
  - cbn [negb]. apply refs_to_pos in E. specialize (Hle i Hi). lia.
  - cbn [negb]. apply refs_to_zero in E. lia.
Qed.

(** ** Sorting *)

Lemma sort_key_le_iff (a b : EditedRow) :
  sort_key_le a b = true <-> match_team_le a b.
Proof.
  unfold sort_key_le, match_team_le.
  rewrite orb_true_iff, andb_true_iff, Z.ltb_lt, Z.eqb_eq, Z.leb_le. tauto.
Qed.

Lemma sort_key_le_total (a b : EditedRow) :
  sort_key_le a b = false -> match_team_le b a.
Proof.
  intros H. destruct (sort_key_le b a) eqn:E; [now apply sort_key_le_iff|].
  unfold sort_key_le in *.
  apply orb_false_iff in H, E. destruct H as [H1 H2], E as [E1 E2].
  apply Z.ltb_ge in H1, E1. assert (Hm : Match a = Match b) by lia.
  rewrite Hm, Z.eqb_refl in H2, E2. cbn [andb] in H2, E2.
  apply Z.leb_gt in H2, E2. lia.
Qed.

Lemma match_team_le_trans (a b c : EditedRow) :
  match_team_le a b -> match_team_le b c -> match_team_le a c.
Proof. unfold match_team_le. lia. Qed.

Lemma sort_insert_perm (x : Z * EditedRow) (l : EditedTable) :
  Permutation (sort_insert x l) (x :: l).
Proof.
  induction l as [|y l IH]; simpl; [reflexivity|].
  destruct (sort_key_le (snd x) (snd y)); [reflexivity|].
  rewrite IH. apply perm_swap.
Qed.

Lemma sort_values_perm (df : EditedTable) : Permutation (sort_values df) df.
Proof.
  induction df as [|x df IH]; simpl; [reflexivity|].
  rewrite sort_insert_perm. now constructor.
Qed.

Lemma sort_insert_sorted (x : Z * EditedRow) (l : EditedTable) :
  Sorted rows_le l -> Sorted rows_le (sort_insert x l).
Proof.
  induction 1 as [|y l Hs IH Hd]; simpl.
  - repeat constructor.
  - destruct (sort_key_le (snd x) (snd y)) eqn:E.
    + constructor; [now constructor|]. constructor. now apply sort_key_le_iff.
    + constructor; [exact IH|]. apply sort_key_le_total in E.
      destruct Hd as [|z l' Hyz]; simpl; [now constructor|].
      destruct (sort_key_le (snd x) (snd z)); now constructor.
Qed.

Lemma sort_values_sorted (df : EditedTable) :
  StronglySorted rows_le (sort_values df).
Proof.
  apply Sorted_StronglySorted.
  - intros a b c. apply match_team_le_trans.
  - induction df as [|x df IH]; simpl; [constructor|].
    now apply sort_insert_sorted.
Qed.

(** ** [search] against its specification *)

Lemma filter_all {A} (l : list A) : filter (fun _ => true) l = l.
Proof. induction l as [|x l IH]; simpl; [reflexivity|now rewrite IH]. Qed.

Lemma filter_filter {A} (p q : A -> bool) (l : list A) :
  filter p (filter q l) = filter (fun x => q x && p x) l.
Proof.
  induction l as [|x l IH]; simpl; [reflexivity|].
  destruct (q x); simpl; [destruct (p x)|]; now rewrite IH.
Qed.

Lemma unique_In {A} (eqb : A -> A -> bool) (l : list A) (x : A) :
  (forall a b, eqb a b = true <-> a = b) ->
  In x (unique eqb l) <-> In x l.
Proof.
  intros Heqb. induction l as [|y l IH]; simpl; [tauto|].
  rewrite filter_In, IH. split.
  - intros [H|[H _]]; [now left|now right].
  - intros [H|H]; [now left|].
    destruct (eqb y x) eqn:E; [left; now apply Heqb|right; now split].
Qed.

Lemma isin_str_true (s : string) (l : list string) :
  isin_str s l = true <-> In s l.
Proof.
  unfold isin_str. rewrite existsb_exists. split.
  - intros [y [Hy He]]. apply String.eqb_eq in He. now subst.
  - intros H. exists s. split; [assumption|apply String.eqb_refl].
Qed.

Section Possible.
Context {A B : Type} (eqb : A -> A -> bool) (mem : A -> list A -> bool).
Context (selects : A -> B -> bool) (col : EditedRow -> A).
Hypothesis eqb_spec : forall a b, eqb a b = true <-> a = b.
Hypothesis mem_spec : forall a l, mem a l = true <-> In a l.

(** Membership in the set of possible values is the relaxed match
    itself, for the rows of the table the set was computed from. *)
Lemma mem_possible (given : list B) (edited : EditedTable) (lr : Z * EditedRow) :
  In lr edited ->
  mem (col (snd lr)) (possible eqb selects col given edited) =
  existsb (selects (col (snd lr))) given.
Proof.
  intros Hin. apply eq_true_iff_eq. rewrite mem_spec. unfold possible.
  rewrite filter_In, (unique_In eqb _ _ eqb_spec). split; [tauto|].
  intros H. split; [|exact H]. apply in_map. unfold rows. now apply in_map.
Qed.

Lemma keep_possible (given : option (list B)) (edited df : EditedTable) :
  incl df edited ->
  keep_isin
    (option_map (fun g => possible eqb selects col g edited) (truthy given))
    col mem df =
  filter (fun lr => some_value_matches given (selects (col (snd lr)))) df.
Proof.
  intros Hincl. destruct given as [[|v g]|]; cbn [truthy option_map keep_isin];
    try (unfold some_value_matches; now rewrite filter_all).
  apply filter_ext_in. intros lr Hlr. unfold some_value_matches.
  apply mem_possible. now apply Hincl.
Qed.
End Possible.

Lemma keep_exact (given : option (list string)) (col : EditedRow -> string)
  (df : EditedTable) :
  keep_isin (truthy given) col isin_str df =
  filter (fun lr => some_value_matches given (String.eqb (col (snd lr)))) df.
Proof.
  destruct given as [[|v g]|]; cbn [truthy keep_isin];
    try (unfold some_value_matches; now rewrite filter_all).
  reflexivity.
Qed.

Lemma incl_filter {A} (p : A -> bool) (l : list A) : incl (filter p l) l.
Proof. intros x Hx. now apply filter_In in Hx. Qed.

Lemma search_filter `{U : Unicode} (edited : EditedTable) (kwargs : Criteria pyval) :
  search edited kwargs =
  sort_values (filter (fun lr => relaxed_match kwargs (snd lr)) edited).
Proof.
  unfold search.
  rewrite (keep_possible Z.eqb isin _ (fun r => Match r) Z.eqb_eq isin_true)
    by apply incl_refl.
  rewrite (keep_possible Z.eqb isin _ (fun r => Team r) Z.eqb_eq isin_true)
    by apply incl_filter.
  rewrite (keep_possible String.eqb isin_str _ (fun r => Name r)
             String.eqb_eq isin_str_true)
    by (eapply incl_tran; apply incl_filter).
  rewrite !keep_exact, !filter_filter. f_equal. apply filter_ext.
  intros lr. unfold relaxed_match. now rewrite !andb_assoc.
Qed.







(** C10: a field given to search with an empty list is dropped before the
    matching and constrains nothing: search(team=[]) is search(), and
    returns every row of the table; the same holds for match=[] and
    name=[] next to any other criteria. *)
Theorem search_drops_empty_criteria `{U : Unicode}
  (edited : EditedTable) (kwargs : Criteria pyval) :
  search edited (only_team (Some [])) = search edited no_criteria /\
  Permutation (search edited (only_team (Some []))) edited /\
  search edited {| by_match := by_match kwargs; by_team := Some [];
                   by_name := by_name kwargs; by_board := by_board kwargs;
                   by_edited := by_edited kwargs |} =
  search edited {| by_match := by_match kwargs; by_team := None;
                   by_name := by_name kwargs; by_board := by_board kwargs;
                   by_edited := by_edited kwargs |} /\
  search edited {| by_match := Some []; by_team := by_team kwargs;
                   by_name := by_name kwargs; by_board := by_board kwargs;
                   by_edited := by_edited kwargs |} =
  search edited {| by_match := None; by_team := by_team kwargs;
                   by_name := by_name kwargs; by_board := by_board kwargs;
                   by_edited := by_edited kwargs |} /\
  search edited {| by_match := by_match kwargs; by_team := by_team kwargs;
                   by_name := Some []; by_board := by_board kwargs;
                   by_edited := by_edited kwargs |} =
  search edited {| by_match := by_match kwargs; by_team := by_team kwargs;
                   by_name := None; by_board := by_board kwargs;
                   by_edited := by_edited kwargs |}.
Proof.
  repeat split; try reflexivity.
  rewrite search_filter. unfold relaxed_match, only_team. cbn.
  rewrite filter_all. apply sort_values_perm.
Qed.

(** ** Lookup and navigation *)

Lemma item_nth {A} (l : list A) (i : nat) (x : A) :
  nth_error l i = Some x -> item l i = Ok x.
Proof. unfold item. now intros ->. Qed.

Lemma py_item_in_range {A} (l : list A) (i : Z) :
  0 <= i < Z.of_nat (length l) ->
  exists x, nth_error l (Z.to_nat i) = Some x /\ py_item l i = Ok x.
Proof.
  intros Hi. destruct (nth_error l (Z.to_nat i)) as [x|] eqn:E.
  - exists x. split; [reflexivity|]. unfold py_item.
    zb_true (0 <=? i). zb_true (i <? Z.of_nat (length l)).
    cbn [andb]. now apply item_nth.
  - apply nth_error_None in E. lia.
Qed.

Lemma list_index_first (x : Z) (l : list Z) (p : nat) :
  nth_error l p = Some x ->
  (forall q, (q < p)%nat -> nth_error l q <> Some x) ->
  list_index x l = Ok p.
Proof.
  revert p; induction l as [|y l IH]; intros [|p] Hp Hfirst; simpl in *;
    try discriminate.
  - inversion Hp; subst. now rewrite Z.eqb_refl.
  - destruct (Z.eqb_spec y x) as [->|Hne].
    + exfalso. apply (Hfirst 0%nat); [lia|reflexivity].
    + rewrite (IH p Hp); [reflexivity|].
      intros q Hq. apply (Hfirst (S q)). lia.
Qed.

Lemma isin_false (x : Z) (l : list Z) : ~ In x l -> isin x l = false.
Proof.
  intros H. destruct (isin x l) eqn:E; [|reflexivity].
  now apply isin_true in E.
Qed.

Section Navigation.
Context `{C : Collaborators}.

Lemma data_row_at_absent (edited_data : EditedTable) (i : Z) :
  ~ In i (index edited_data) -> data_row_at edited_data i = Ok None.
Proof. intros H. unfold data_row_at. now rewrite isin_false. Qed.

Lemma entry_at_absent (edited_data : EditedTable) (i : Z) :
  ~ In i (index edited_data) -> entry_at edited_data i = Ok None.
Proof. intros H. unfold entry_at. now rewrite data_row_at_absent. Qed.

Lemma getitem_absent (self : VerificationManager) (i : Z) :
  ~ In i (index (edited_entries self)) -> getitem self i = Raise IndexError.
Proof. intros H. unfold getitem. now rewrite isin_false. Qed.

Lemma get_relative_entry_empty (edited_data : EditedTable)
  (view : list FilteredRow) (cur off : Z) :
  map index_col view = [] ->
  get_relative_entry edited_data view cur off = Ok None.
Proof. intros H. unfold get_relative_entry. now rewrite H. Qed.

Lemma get_relative_entry_fallback (edited_data : EditedTable)
  (view : list FilteredRow) (cur off i0 : Z) (rest : list Z) :
  map index_col view = i0 :: rest ->
  ~ In cur (map index_col view) ->
  get_relative_entry edited_data view cur off = entry_at edited_data i0.
Proof.
  intros Hv Hn. unfold get_relative_entry. rewrite (isin_false _ _ Hn), Hv.
  reflexivity.
Qed.

Lemma get_relative_entry_found (edited_data : EditedTable)
  (view : list FilteredRow) (cur off : Z) (p : nat) :
  nth_error (map index_col view) p = Some cur ->
  (forall q, (q < p)%nat -> nth_error (map index_col view) q <> Some cur) ->
  exists i,
    nth_error (map index_col view)
      (Z.to_nat ((Z.of_nat p + off) mod Z.of_nat (length (map index_col view))))
    = Some i /\
    get_relative_entry edited_data view cur off = entry_at edited_data i.
Proof.
  intros Hp Hfirst. set (indices := map index_col view) in *.
  assert (Hlen : (p < length indices)%nat)
    by (apply nth_error_Some; now rewrite Hp).
  assert (Hin : isin cur indices = true)
    by (apply isin_true; eapply nth_error_In; exact Hp).
  destruct (py_item_in_range indices
              ((Z.of_nat p + off) mod Z.of_nat (length indices)))
    as [i [Hi Hitem]].
  { apply Z.mod_pos_bound. lia. }
  exists i. split; [exact Hi|].
  unfold get_relative_entry. fold indices.
  replace (length indices =? 0)%nat with false
    by (symmetry; apply Nat.eqb_neq; lia).
  cbn [negb]. rewrite Hin, (list_index_first _ _ _ Hp Hfirst). cbn [bind].
  now rewrite Hitem.
Qed.
End Navigation.

(** Which identity relative navigation looks up.  With [indices] the
    identity list of the view: an empty view gives the empty result, not an
    exception; when the current identity first occurs at position [p], the
    lookup is that of the identity found at position
    [(p + offset) mod length]; when it does not occur, the lookup is that
    of the identity at position 0. *)
Lemma get_relative_entry_lookup `{C : Collaborators}
  (edited_data : EditedTable) (view : list FilteredRow) (cur off : Z) :
  (map index_col view = [] ->
   get_relative_entry edited_data view cur off = Ok None) /\
  (forall p,
     nth_error (map index_col view) p = Some cur ->
     (forall q, (q < p)%nat -> nth_error (map index_col view) q <> Some cur) ->
     exists i,
       nth_error (map index_col view)
         (Z.to_nat ((Z.of_nat p + off) mod Z.of_nat (length (map index_col view))))
       = Some i /\
       get_relative_entry edited_data view cur off = entry_at edited_data i) /\
  (forall i0 rest,
     map index_col view = i0 :: rest ->
     ~ In cur (map index_col view) ->
     get_relative_entry edited_data view cur off = entry_at edited_data i0) /\
  (map index_col view = [10; 11; 12] ->
   next edited_data view 12 = entry_at edited_data 10).
Proof.
  split; [apply get_relative_entry_empty|].
  split; [apply get_relative_entry_found|].
  split; [intros i0 rest; apply get_relative_entry_fallback|].
  intros Hv. unfold next.
  destruct (get_relative_entry_found edited_data view 12 1 2) as [i [Hi Hr]].
  - now rewrite Hv.
  - rewrite Hv. intros [|[|q]] Hq; simpl; try discriminate; lia.
  - rewrite Hr. rewrite Hv in Hi. cbn in Hi. now inversion Hi.
Qed.

(** C7 on a table from which a row was removed.  The identity that
    navigation selects is the one the claim names, but its entry is read
    at the position of that number, not at the row of that label:
    after the row labelled 1 was removed, next from 0 selects the identity
    2, whose row is in the table, and raises [IndexError]; after the row
    labelled 0 was removed, previous from 2 selects the identity 1 and
    returns the entry of the row labelled 2.  On the table as it was,
    labelled by position, next from 2 wraps around to the entry of the
    row labelled 0. *)
Theorem navigation_after_removal :
  remove_entry sample_edited (PyStr "6") (PyStr "20") (PyStr "Ann") 1
  = Ok sample_dropped /\
  map index_col (filter_entries sample_dropped no_criteria) = [0; 2] /\
  In (2, {| RawIndex := None; cols := sample_columns 9 120 "Eve"; Edited := "" |})
     sample_dropped /\
  next sample_dropped (filter_entries sample_dropped no_criteria) 0
  = Raise IndexError /\
  remove_entry sample_edited (PyStr "5") (PyStr "200") (PyStr "Sam") 0
  = Ok sample_removed_first /\
  map index_col (filter_entries sample_removed_first no_criteria) = [1; 2] /\
  In (1, {| RawIndex := Some 1; cols := sample_columns 6 20 "Ann"; Edited := " " |})
     sample_removed_first /\
  previous sample_removed_first
    (filter_entries sample_removed_first no_criteria) 2
  = Ok (Some {| info_Match := 9; info_Team := 120; info_Name := "Eve";
                info_StartTime := "0"; info_Comments := "";
                info_Board := "Comp"; info_Data := ["00ff"%string] |}) /\
  map index_col (filter_entries sample_edited no_criteria) = [0; 1; 2] /\
  next sample_edited (filter_entries sample_edited no_criteria) 2
  = Ok (Some {| info_Match := 5; info_Team := 200; info_Name := "Sam";
                info_StartTime := "0"; info_Comments := "";
                info_Board := "Comp"; info_Data := ["00ff"%string] |}).
Proof. repeat split; try reflexivity; simpl; tauto. Qed.

(** ** Identities that are not in the table *)

Lemma keep_isin_incl {A} (rule : option (list A)) (col : EditedRow -> A)
  (mem : A -> list A -> bool) (df : EditedTable) :
  incl (keep_isin rule col mem df) df.
Proof. destruct rule; simpl; [apply incl_filter|apply incl_refl]. Qed.

Lemma filter_entries_index (edited_data : EditedTable) (filters : Criteria Z) (i : Z) :
  In i (map index_col (filter_entries edited_data filters)) ->
  In i (index edited_data).
Proof.
  unfold filter_entries. rewrite map_map. cbn [filtered_row index_col].
  intros H. apply in_map_iff in H. destruct H as [lr [<- Hlr]].
  apply (Permutation_in _ (sort_values_perm _)) in Hlr.
  do 5 apply keep_isin_incl in Hlr. unfold index. now apply in_map.
Qed.

(** The position and the label of a row differ once a row was dropped:
    the lookup of the label 2, which is in the table, reads position 2,
    which is not. *)
Example entry_at_after_drop :
  In 2 (index sample_dropped) /\ entry_at sample_dropped 2 = Raise IndexError.
Proof. split; [simpl; tauto|reflexivity]. Qed.

(** C8, as the code has it: the lookup [entry_at] of an identity that is
    not in the table returns the empty marker; the lookup [__getitem__]
    raises [IndexError] for it; navigation from an identity that is not in
    the view, as is every identity that is not in the table the view was
    filtered from, falls back to the lookup of the first identity of the
    view. *)
Theorem identity_not_found_fallback `{C : Collaborators}
  (edited_data : EditedTable) (self : VerificationManager)
  (view : list FilteredRow) (filters : Criteria Z) (i cur off : Z) :
  (~ In i (index edited_data) -> entry_at edited_data i = Ok None) /\
  (~ In i (index (edited_entries self)) -> getitem self i = Raise IndexError) /\
  (~ In cur (map index_col view) ->
   forall i0 rest, map index_col view = i0 :: rest ->
     get_relative_entry edited_data view cur off = entry_at edited_data i0) /\
  (~ In cur (index edited_data) ->
   forall i0 rest,
     map index_col (filter_entries edited_data filters) = i0 :: rest ->
     get_relative_entry edited_data (filter_entries edited_data filters) cur off
     = entry_at edited_data i0).
Proof.
  split; [apply entry_at_absent|]. split; [apply getitem_absent|].
  split.
  - intros Hn i0 rest Hv. now apply (get_relative_entry_fallback _ _ _ _ i0 rest).
  - intros Hn i0 rest Hv. apply (get_relative_entry_fallback _ _ _ _ i0 rest Hv).
    intros Hin. apply Hn. now apply (filter_entries_index _ filters).
Qed.

Lemma identity_not_found_fallback_witness :
  entry_at sample_edited 7 = Ok None /\
  getitem sample_manager 7 = Raise IndexError /\
  get_relative_entry sample_edited sample_view 7 1 = entry_at sample_edited 10 /\
  get_relative_entry sample_edited (filter_entries sample_edited no_criteria) 7 1
  = entry_at sample_edited 0.
Proof.
  assert (H7 : ~ In 7 (index sample_edited)).
  { simpl. intros [H|[H|[H|[]]]]; discriminate. }
  destruct (identity_not_found_fallback sample_edited sample_manager
              sample_view no_criteria 7 7 1) as [H1 [H2 [H3 H4]]].
  split; [exact (H1 H7)|]. split; [exact (H2 H7)|]. split.
  - assert (Hv : ~ In 7 (map index_col sample_view)).
    { simpl. intros [H|[H|[H|[]]]]; discriminate. }
    apply (H3 Hv 10 [11; 12]). reflexivity.
  - apply (H4 H7 0 [1; 2]). reflexivity.
Defined.

(** The lookup of the verification manager raises where [entry_at]
    returns the empty marker. *)
Lemma getitem_absent_identity_raises :
  ~ In 7 (index (edited_entries sample_manager)) /\
  getitem sample_manager 7 = Raise IndexError /\
  ~ (forall (self : VerificationManager) (i : Z),
       ~ In i (index (edited_entries self)) ->
       exists found, getitem self i = Ok found).
Proof.
  assert (H7 : ~ In 7 (index (edited_entries sample_manager))).
  { simpl. intros [H|[H|[H|[]]]]; discriminate. }
  split; [exact H7|]. split; [reflexivity|].
  intros H. destruct (H sample_manager 7 H7) as [found Hf]. discriminate Hf.
Qed.

(** ** [remove_entry] *)

Lemma find_label_absent {R} (df : DataFrame R) (i : Z) :
  ~ In i (index df) -> find (fun lr => Z.eqb (fst lr) i) df = None.
Proof.
  induction df as [|[l r] df IH]; simpl; [reflexivity|]. intros H.
  destruct (Z.eqb_spec l i) as [->|Hne]; [exfalso; apply H; now left|].
  apply IH. intros Hin. apply H. now right.
Qed.

Lemma find_label_present {R} (df : DataFrame R) (i : Z) (r : R) :
  NoDup (index df) -> In (i, r) df ->
  find (fun lr => Z.eqb (fst lr) i) df = Some (i, r).
Proof.
  induction df as [|[l r'] df IH]; simpl; [contradiction|].
  intros Hnd [Heq|Hin].
  - inversion Heq; subst. now rewrite Z.eqb_refl.
  - inversion Hnd as [|? ? Hl Hnd']; subst.
    destruct (Z.eqb_spec l i) as [->|Hne].
    + exfalso. apply Hl. unfold index. 
      change i with (fst (i, r)). now apply in_map.
    + now apply IH.
Qed.

Lemma loc_absent {R} (df : DataFrame R) (i : Z) :
  ~ In i (index df) -> loc df i = Raise KeyError.
Proof. intros H. unfold loc. now rewrite find_label_absent. Qed.

Lemma loc_present {R} (df : DataFrame R) (i : Z) (r : R) :
  NoDup (index df) -> In (i, r) df -> loc df i = Ok r.
Proof. intros Hnd Hin. unfold loc. now rewrite (find_label_present df i r). Qed.

(** On a row that is in the table, [remove_entry] compares the given
    values with the strings of the row's fields: on equality the row with
    that label leaves the table, otherwise the table stays as it is. *)
Lemma remove_entry_present (edited_data : EditedTable) (m t n : pyval)
  (i : Z) (r : EditedRow) :
  NoDup (index edited_data) -> In (i, r) edited_data ->
  remove_entry edited_data m t n i =
  if str_eq (str_of_int (Match r)) m && str_eq (str_of_int (Team r)) t
     && str_eq (Name r) n
  then Ok (filter (fun lr => negb (Z.eqb (fst lr) i)) edited_data)
  else Ok edited_data.
Proof.
  intros Hnd Hin. unfold remove_entry.
  rewrite (loc_present edited_data i r Hnd Hin). cbn [bind].
  destruct (_ && _ && _); [|reflexivity].
  unfold drop. replace (isin i (index edited_data)) with true; [reflexivity|].
  symmetry. apply isin_true. unfold index.
  change i with (fst (i, r)). now apply in_map.
Qed.

(** Given as integers, the values never equal the strings of the row, and
    nothing is removed. *)
Example remove_entry_integers :
  remove_entry sample_edited (PyInt 5) (PyInt 200) (PyStr "Sam") 0
  = Ok sample_edited /\
  remove_entry sample_edited (PyStr "5") (PyStr "200") (PyStr "Sam") 0
  = Ok (tl sample_edited).
Proof. split; reflexivity. Qed.

(** C9 at an identity that is not in the table: [remove_entry] raises
    [KeyError], where the claim has the table unchanged and no error. *)
Theorem remove_entry_absent_identity
  (edited_data : EditedTable) (m t n : pyval) (i : Z) :
  ~ In i (index edited_data) ->
  remove_entry edited_data m t n i = Raise KeyError.
Proof. intros H. unfold remove_entry. now rewrite loc_absent. Qed.

Lemma remove_entry_absent_identity_witness :
  remove_entry sample_edited (PyStr "5") (PyStr "200") (PyStr "Sam") 7
  = Raise KeyError.
Proof.
  apply remove_entry_absent_identity.
  simpl. intros [H|[H|[H|[]]]]; discriminate.
Defined.

Lemma merge_preserves_rows_witness :
  nth_error (merge sample_raw sample_dropped) 1
  = Some (1, {| RawIndex := None; cols := sample_columns 9 120 "Eve"; Edited := "" |}) /\
  nth_error (merge sample_raw sample_edited) 2
  = Some (2, {| RawIndex := None; cols := sample_columns 9 120 "Eve"; Edited := "" |}).
Proof.
  split.
  - apply (merge_preserves_rows sample_raw sample_dropped 1 2). reflexivity.
  - destruct (merge_preserves_rows sample_raw sample_edited 2 2
                {| RawIndex := None; cols := sample_columns 9 120 "Eve"; Edited := "" |}
                eq_refl) as [_ [H _]].
    apply H. reflexivity.
Defined.

Lemma merge_coverage_witness :
  refs_to 0 (rows (merge sample_raw sample_edited)) = 1%nat /\
  refs_to 2 (rows (merge sample_raw sample_edited)) = 1%nat.
Proof.
  assert (H : forall i, 0 <= i < Z.of_nat (length sample_raw) ->
                        (refs_to i (rows sample_edited) <= 1)%nat).
  { intros i Hi. simpl in Hi.
    assert (Hc : i = 0 \/ i = 1 \/ i = 2) by lia.
    destruct Hc as [ -> | [ -> | -> ] ]; vm_compute; lia. }
  split; apply (merge_coverage sample_raw sample_edited H); simpl; lia.
Defined.

(** ** [append] *)

Lemma range_indexed_iloc {R} (df : DataFrame R) (l : Z) (r : R) :
  range_indexed df -> In (l, r) df -> iloc df l = Ok r.
Proof.
  intros Hc Hin. apply In_nth_error in Hin. destruct Hin as [i Hi].
  pose proof (range_indexed_nth df i l r Hc Hi) as ->.
  assert (Hr : nth_error (rows df) i = Some r).
  { unfold rows. now rewrite nth_error_map, Hi. }
  assert (Hlen : (i < length (rows df))%nat)
    by (apply nth_error_Some; now rewrite Hr).
  unfold iloc.
  destruct (py_item_in_range (rows df) (Z.of_nat i)) as [x [Hx Hitem]]; [lia|].
  rewrite Nat2Z.id, Hr in Hx. inversion Hx; subst. exact Hitem.
Qed.

Lemma range_indexed_app {R} (df : DataFrame R) (new : list R) :
  range_indexed df ->
  concat_ignore_index df new =
  df ++ enumerate_from (Z.of_nat (length df)) new.
Proof.
  intros Hc. unfold concat_ignore_index, reset_index.
  rewrite enumerate_from_app. fold (reset_index (rows df)). rewrite <- Hc.
  unfold rows. now rewrite length_map.
Qed.

Lemma concat_range_indexed {R} (df : DataFrame R) (new : list R) :
  range_indexed (concat_ignore_index df new).
Proof. apply reset_index_range_indexed. Qed.

(** The tables of the verification manager keep their labels equal to
    the positions. *)
Lemma merge_range_indexed (raw : RawTable) (edited : EditedTable) :
  range_indexed (merge raw edited).
Proof. apply concat_range_indexed. Qed.

Lemma match_row_head (edited : EditedTable) (m t : Z) (n : string)
  (l : Z) (r : EditedRow) (rest : EditedTable) :
  match_row edited m t n = (l, r) :: rest ->
  In (l, r) edited /\ Match r = m /\ Team r = t /\ Name r = n.
Proof.
  intros H. assert (Hin : In (l, r) (match_row edited m t n))
    by (rewrite H; now left).
  unfold match_row in Hin. apply filter_In in Hin. destruct Hin as [Hin Hk].
  cbn [snd] in Hk. apply andb_true_iff in Hk. destruct Hk as [Hk Hn].
  apply andb_true_iff in Hk. destruct Hk as [Hm Ht].
  apply Z.eqb_eq in Hm, Ht. apply String.eqb_eq in Hn. tauto.
Qed.

Section Append.
Context `{C : Collaborators}.

Lemma getitem_range_indexed (self : VerificationManager) (l : Z) (r : EditedRow) :
  range_indexed (edited_entries self) ->
  In (l, r) (edited_entries self) ->
  getitem self l = decoded_entry self r.
Proof.
  intros Hc Hin. unfold getitem.
  replace (isin l (index (edited_entries self))) with true.
  - now rewrite (range_indexed_iloc _ l r Hc Hin).
  - symmetry. apply isin_true. unfold index.
    change l with (fst (l, r)). now apply in_map.
Qed.

Lemma append_existing (self : VerificationManager) (now : timestamp)
  (m t : Z) (n : string) (l : Z) (r : EditedRow) (rest : EditedTable) :
  range_indexed (edited_entries self) ->
  match_row (edited_entries self) m t n = (l, r) :: rest ->
  append self now m t n = (decoded_entry self r, self).
Proof.
  intros Hc Hm. unfold append. rewrite Hm. cbn [empty index map fst item nth_error bind].
  rewrite (getitem_range_indexed self l r Hc); [reflexivity|].
  now apply (match_row_head _ m t n l r rest).
Qed.

Lemma match_row_appended (edited : EditedTable) (now : timestamp)
  (m t : Z) (n : string) (l : Z) :
  match_row edited m t n = [] ->
  match_row (edited ++ [(l, appended_row now m t n)]) m t n
  = [(l, appended_row now m t n)].
Proof.
  intros H. unfold match_row in *. rewrite filter_app, H.
  cbn. now rewrite !Z.eqb_refl, String.eqb_refl.
Qed.

Lemma append_new (self : VerificationManager) (now : timestamp)
  (m t : Z) (n : string) :
  range_indexed (edited_entries self) ->
  match_row (edited_entries self) m t n = [] ->
  let new := appended_row now m t n in
  let self' :=
    {| raw_entries := raw_entries self;
       edited_entries :=
         edited_entries self ++ [(Z.of_nat (length (edited_entries self)), new)] |} in
  append self now m t n = (decoded_entry self' new, self') /\
  range_indexed (edited_entries self').
Proof.
  intros Hc Hm new self'.
  assert (He : concat_ignore_index (edited_entries self)
                 [appended_row now m t n]
               = edited_entries self').
  { now rewrite (range_indexed_app _ _ Hc). }
  assert (Hc' : range_indexed (edited_entries self')).
  { rewrite <- He. apply concat_range_indexed. }
  split; [|exact Hc'].
  unfold append. rewrite Hm. cbn [empty]. rewrite He.
  change {| raw_entries := raw_entries self;
            edited_entries := edited_entries self' |} with self'.
  cbn [edited_entries self'].
  rewrite (match_row_appended _ now m t n _ Hm).
  cbn [index map fst item nth_error bind]. f_equal.
  apply (getitem_range_indexed self' _ _ Hc').
  cbn [edited_entries self']. apply in_or_app. right. now left.
Qed.
End Append.

(** What [append] does on a manager whose edited table is labelled by
    position (as every table built by merge and append is): when a row
    with the three key values exists, the manager stays as it is and the
    result is that of the lookup of the first such row; when none exists,
    exactly one row is added at the end (no raw index, no edit time, start
    time now, the first board, no data, no comments), its lookup returns
    its entry, and a second append with the same key returns the same
    entry and adds nothing. *)
Lemma append_outcome `{C : Collaborators}
  (self : VerificationManager) (now now' : timestamp) (m t : Z) (n : string) :
  range_indexed (edited_entries self) ->
  (forall l r rest,
     match_row (edited_entries self) m t n = (l, r) :: rest ->
     In (l, r) (edited_entries self) /\
     (Match r = m /\ Team r = t /\ Name r = n) /\
     append self now m t n = (decoded_entry self r, self)) /\
  (match_row (edited_entries self) m t n = [] ->
     let new := appended_row now m t n in
     let self' :=
       {| raw_entries := raw_entries self;
          edited_entries :=
            edited_entries self ++ [(Z.of_nat (length (edited_entries self)), new)] |} in
     append self now m t n = (decoded_entry self' new, self') /\
     decoded_entry self' new = (e <- Entry (EditedSeries new) ;; Ok (None, e, "")) /\
     (RawIndex new = None /\ Edited new = "" /\
      StartTime new = display_time now /\ Board new = board_name get_first /\
      Data new = "" /\ Comments new = "" /\
      Match new = m /\ Team new = t /\ Name new = n) /\
     append self' now' m t n = (decoded_entry self' new, self')).
Proof.
  intros Hc. split.
  - intros l r rest Hm.
    destruct (match_row_head _ m t n l r rest Hm) as [Hin Hk].
    split; [exact Hin|]. split; [exact Hk|].
    now apply (append_existing self now m t n l r rest).
  - intros Hm new self'.
    destruct (append_new self now m t n Hc Hm) as [Ha Hc'].
    fold new in Ha, Hc'. fold self' in Ha, Hc'.
    split; [exact Ha|]. split; [reflexivity|].
    split; [cbn; tauto|].
    apply (append_existing self' now' m t n
             (Z.of_nat (length (edited_entries self))) new [] Hc').
    cbn [edited_entries self']. unfold new.
    apply (match_row_appended _ now m t n _ Hm).
Qed.

(** C4 on a row that exists and came from a raw row, in a table that
    also has a row appended by hand.  The column of raw indices then holds
    floats, the lookup of the row passes the float to [iloc], and [append]
    raises [TypeError] where the claim has it return the entry of the row.
    Before any row was appended by hand the same call returns the entry.
    [add_entry] of the entry manager returns [None] for a key that is not
    in the table. *)
Theorem append_existing_row_raises :
  edited_entries sample_manager = sample_edited /\
  match_row sample_edited 5 200 "Sam"
  = [(0, {| RawIndex := Some 0; cols := sample_columns 5 200 "Sam";
            Edited := " " |})] /\
  float_column sample_edited = true /\
  append sample_manager sample_now 5 200 "Sam"
  = (Raise TypeError, sample_manager) /\
  append sample_imported sample_now 5 200 "Sam"
  = (Ok (Some (RawSeries (sample_columns 5 200 "Sam")),
         EditedSeries {| RawIndex := Some 0; cols := sample_columns 5 200 "Sam";
                         Edited := " " |},
         " "%string),
     sample_imported) /\
  add_entry sample_edited 8 300 "Zed" = Ok None.
Proof. repeat split; reflexivity. Qed.

(** [add_entry] of the entry manager looks the key up and adds nothing. *)
Lemma add_entry_missing `{C : Collaborators} (edited_data : EditedTable)
  (m t : Z) (n : string) :
  match_row edited_data m t n = [] -> add_entry edited_data m t n = Ok None.
Proof. intros H. unfold add_entry. now rewrite H. Qed.

(** ** The importer *)

Lemma split_nonempty (sep : ascii) (s : string) : split sep s <> [].
Proof.
  destruct s as [|c s]; simpl; [discriminate|].
  destruct (Ascii.eqb c sep); [discriminate|].
  destruct (split sep s); discriminate.
Qed.

Lemma split_free (sep : ascii) (a : string) :
  free_of sep a = true -> split sep a = [a].
Proof.
  induction a as [|c a IH]; simpl; [reflexivity|]. intros H.
  apply andb_true_iff in H. destruct H as [Hc Ha].
  apply negb_true_iff in Hc. rewrite Hc, (IH Ha). reflexivity.
Qed.

Lemma split_token (sep : ascii) (a b : string) :
  free_of sep a = true ->
  split sep (a ++ String sep b)%string = a :: split sep b.
Proof.
  induction a as [|c a IH]; simpl; intros H.
  - now rewrite Ascii.eqb_refl.
  - apply andb_true_iff in H. destruct H as [Hc Ha].
    apply negb_true_iff in Hc. rewrite Hc, (IH Ha). reflexivity.
Qed.

Lemma first_piece_free (sep : ascii) (s : string) :
  free_of sep s = true -> first_piece sep s = s.
Proof. intros H. unfold first_piece. now rewrite split_free. Qed.

(** What [make_columns] stores: the first six tokens, and as comments the
    rest of the line up to its first underscore. *)
Lemma make_columns_tokens `{C : Collaborators}
  (m t n st bd d c : string) (zm zt zst zbd : Z) :
  free_of "_" m = true -> free_of "_" t = true -> free_of "_" n = true ->
  free_of "_" st = true -> free_of "_" bd = true -> free_of "_" d = true ->
  int_of 10 m = Ok zm -> int_of 10 t = Ok zt ->
  int_of 16 st = Ok zst -> int_of 16 bd = Ok zbd ->
  make_columns (m ++ "_" ++ t ++ "_" ++ n ++ "_" ++ st ++ "_" ++ bd ++ "_"
                  ++ d ++ "_" ++ c)%string
  = (b <- get_board_by_id zbd ;;
     Ok {| Match := zm; Team := zt; Name := n;
           StartTime := display_time (timestamp_of_int zst);
           Board := board_name b;
           Data := d;
           Comments := first_piece "_" c |}).
Proof.
  intros Fm Ft Fn Fst Fbd Fd Hm Ht Hst Hbd. unfold make_columns.
  cbn [String.append]. rewrite !split_token by assumption.
  unfold first_piece. pose proof (split_nonempty "_" c) as Hne.
  destruct (split "_" c) as [|c0 cs]; [congruence|].
  cbn [item nth_error bind hd]. rewrite Hm, Ht, Hst, Hbd. cbn [bind].
  reflexivity.
Qed.

(** *** Lines that pass the format test *)

Lemma span_spec (p : ascii -> bool) (s : string) :
  s = (fst (span p s) ++ snd (span p s))%string /\
  all_chars p (fst (span p s)) = true.
Proof.
  induction s as [|c s [IH1 IH2]]; simpl; [split; reflexivity|].
  destruct (p c) eqn:E; [|split; reflexivity].
  destruct (span p s) as [a b]. simpl in *. rewrite E, IH2. split; [|reflexivity].
  now rewrite IH1 at 1.
Qed.

Lemma run_then_underscore_spec (p : ascii -> bool) (ok : nat -> bool)
  (s rest : string) :
  run_then_underscore p ok s = Some rest ->
  exists run, s = (run ++ String "_" rest)%string /\
              all_chars p run = true /\ ok (String.length run) = true.
Proof.
  unfold run_then_underscore. destruct (span_spec p s) as [Hs Hall].
  destruct (span p s) as [run after]. simpl in Hs, Hall.
  destruct (ok (String.length run)) eqn:Hok; [|discriminate].
  destruct after as [|c after]; [discriminate|].
  destruct (Ascii.eqb_spec c "_"%char) as [->|Hne].
  - intros H. inversion H; subst rest. exists run. now repeat split.
  - destruct c as [[] [] [] [] [] [] [] []]; try discriminate; congruence.
Qed.

Lemma all_chars_impl (p q : ascii -> bool) (s : string) :
  (forall c, p c = true -> q c = true) ->
  all_chars p s = true -> all_chars q s = true.
Proof.
  intros Hpq. induction s as [|c s IH]; simpl; [reflexivity|]. intros H.
  apply andb_true_iff in H. destruct H as [Hc Hs]. now rewrite (Hpq c Hc), IH.
Qed.

Lemma all_chars_free (s : string) :
  all_chars (fun c => negb (Ascii.eqb c "_")) s = true -> free_of "_" s = true.
Proof. induction s as [|c s IH]; simpl; [reflexivity|]. intros H.
  apply andb_true_iff in H. destruct H as [Hc Hs]. now rewrite Hc, IH.
Qed.

Lemma is_hex_not_underscore (c : ascii) :
  is_hex c = true -> negb (Ascii.eqb c "_") = true.
Proof.
  intros H. destruct (Ascii.eqb_spec c "_"%char) as [->|]; [|reflexivity].
  discriminate H.
Qed.

Lemma is_digit_is_hex (c : ascii) : is_digit c = true -> is_hex c = true.
Proof. intros H. unfold is_hex. now rewrite H. Qed.

Lemma hex_free (s : string) : all_chars is_hex s = true -> free_of "_" s = true.
Proof.
  intros H. apply all_chars_free.
  exact (all_chars_impl _ _ s is_hex_not_underscore H).
Qed.

Lemma digit_value_digit (c : ascii) :
  is_digit c = true -> exists d, digit_value c = Some d /\ 0 <= d < 10.
Proof.
  unfold is_digit, digit_value. intros H. rewrite H.
  apply andb_true_iff in H. destruct H as [H1 H2].
  apply Nat.leb_le in H1, H2. eexists. split; [reflexivity|lia].
Qed.

Lemma digit_value_hex (c : ascii) :
  is_hex c = true -> exists d, digit_value c = Some d /\ 0 <= d < 16.
Proof.
  unfold is_hex. intros H. apply orb_true_iff in H. destruct H as [H|H].
  - destruct (digit_value_digit c H) as [d [Hd Hr]]. exists d. split; [exact Hd|lia].
  - unfold digit_value. apply andb_true_iff in H. destruct H as [H1 H2].
    apply Nat.leb_le in H1, H2.
    replace ((48 <=? nat_of_ascii c) && (nat_of_ascii c <=? 57))%nat with false.
    + replace ((97 <=? nat_of_ascii c) && (nat_of_ascii c <=? 102))%nat with true.
      * eexists. split; [reflexivity|lia].
      * symmetry. apply andb_true_iff. split; now apply Nat.leb_le.
    + symmetry. apply andb_false_iff. right. apply Nat.leb_gt. lia.
Qed.

(** A run of digits of the base is a number. *)
Lemma int_digits_run (base : Z) (p : ascii -> bool) (s : string) (acc : Z) :
  (forall c, p c = true -> exists d, digit_value c = Some d /\ 0 <= d < base) ->
  all_chars p s = true -> exists z, int_digits base acc s = Some z.
Proof.
  intros Hp. revert acc. induction s as [|c s IH]; intros acc H; simpl.
  - now exists acc.
  - simpl in H. apply andb_true_iff in H. destruct H as [Hc Hs].
    destruct (Hp c Hc) as [d [Hd Hr]]. rewrite Hd.
    replace (d <? base) with true by (symmetry; apply Z.ltb_lt; lia).
    now apply IH.
Qed.

Lemma int_of_run (base : Z) (p : ascii -> bool) (s : string) :
  (forall c, p c = true -> exists d, digit_value c = Some d /\ 0 <= d < base) ->
  all_chars p s = true -> (1 <= String.length s)%nat ->
  exists z, int_of base s = Ok z.
Proof.
  intros Hp Hall Hlen. destruct (int_digits_run base p s 0 Hp Hall) as [z Hz].
  exists z. unfold int_of. destruct s; [simpl in Hlen; lia|]. now rewrite Hz.
Qed.

(** Every line that passes the format test is seven tokens joined by
    underscores, the first six without an underscore; the match, the team
    and the two hexadecimal groups are numbers, and [make_columns] stores
    them, the name, the board of the registry, the data token as it is,
    and the comments up to their first underscore.  It fails only when the
    registry does not know the board. *)
Lemma make_columns_matched `{C : Collaborators} (e : string) :
  matcher_match e = true ->
  exists m t n st bd d c zm zt zst zbd,
    e = (m ++ "_" ++ t ++ "_" ++ n ++ "_" ++ st ++ "_" ++ bd ++ "_"
           ++ d ++ "_" ++ c)%string /\
    int_of 10 m = Ok zm /\ int_of 10 t = Ok zt /\
    int_of 16 st = Ok zst /\ int_of 16 bd = Ok zbd /\
    free_of "_" n = true /\ all_chars is_hex d = true /\
    make_columns e
    = (b <- get_board_by_id zbd ;;
       Ok {| Match := zm; Team := zt; Name := n;
             StartTime := display_time (timestamp_of_int zst);
             Board := board_name b;
             Data := d;
             Comments := first_piece "_" c |}).
Proof.
  unfold matcher_match, opt_bind. intros H.
  destruct (run_then_underscore is_digit _ e) as [s1|] eqn:E1; [|discriminate].
  destruct (run_then_underscore is_digit _ s1) as [s2|] eqn:E2; [|discriminate].
  destruct (run_then_underscore _ _ s2) as [s3|] eqn:E3; [|discriminate].
  destruct (run_then_underscore is_hex _ s3) as [s4|] eqn:E4; [|discriminate].
  destruct (run_then_underscore is_hex _ s4) as [s5|] eqn:E5; [|discriminate].
  destruct (run_then_underscore is_hex _ s5) as [c|] eqn:E6; [|discriminate].
  apply run_then_underscore_spec in E1, E2, E3, E4, E5, E6.
  destruct E1 as [m [-> [Am Lm]]], E2 as [t [-> [At Lt]]],
           E3 as [n [-> [An Ln]]], E4 as [st [-> [Ast Lst]]],
           E5 as [bd [-> [Abd Lbd]]], E6 as [d [-> [Ad Ld]]].
  apply andb_true_iff in Lm, Lt. destruct Lm as [Lm _], Lt as [Lt _].
  apply Nat.leb_le in Lm, Lt. apply Nat.eqb_eq in Lst, Lbd.
  destruct (int_of_run 10 is_digit m digit_value_digit Am Lm) as [zm Hm].
  destruct (int_of_run 10 is_digit t digit_value_digit At Lt) as [zt Ht].
  destruct (int_of_run 16 is_hex st digit_value_hex Ast) as [zst Hst]; [lia|].
  destruct (int_of_run 16 is_hex bd digit_value_hex Abd) as [zbd Hbd]; [lia|].
  exists m, t, n, st, bd, d, c, zm, zt, zst, zbd.
  assert (Fm : free_of "_" m = true)
    by (apply hex_free; exact (all_chars_impl _ _ m is_digit_is_hex Am)).
  assert (Ft : free_of "_" t = true)
    by (apply hex_free; exact (all_chars_impl _ _ t is_digit_is_hex At)).
  assert (Fn : free_of "_" n = true) by now apply all_chars_free.
  repeat (split; [first [reflexivity | assumption]|]).
  apply make_columns_tokens; auto using hex_free.
Qed.

(** The line of the specification is converted as described. *)
Example make_columns_spec_line :
  matcher_match (read_one_line "5_200_Sam_0000001e_00000001_00ff_hello,ignored")
  = true /\
  make_columns (read_one_line "5_200_Sam_0000001e_00000001_00ff_hello,ignored")
  = Ok {| Match := 5; Team := 200; Name := "Sam"; StartTime := "30";
          Board := "Comp"; Data := "00ff"; Comments := "hello" |}.
Proof. split; reflexivity. Qed.

(** C5 on lines whose comments hold an underscore or a comma: the lines
    pass the format test, and the comments stored are not the comments of
    the line: they stop at the first underscore, and they lose every
    comma. *)
Theorem make_columns_comments_not_verbatim :
  matcher_match
    (read_one_line "5_200_Sam_0000001e_00000001_00ff_hello_world,ignored") = true /\
  make_columns
    (read_one_line "5_200_Sam_0000001e_00000001_00ff_hello_world,ignored")
  = Ok {| Match := 5; Team := 200; Name := "Sam"; StartTime := "30";
          Board := "Comp"; Data := "00ff"; Comments := "hello" |} /\
  matcher_match
    (read_one_line "5_200_Sam_0000001e_00000001_00ff_hello, world,ignored") = true /\
  make_columns
    (read_one_line "5_200_Sam_0000001e_00000001_00ff_hello, world,ignored")
  = Ok {| Match := 5; Team := 200; Name := "Sam"; StartTime := "30";
          Board := "Comp"; Data := "00ff"; Comments := "hello world" |}.
Proof. repeat split; reflexivity. Qed.


(** ** Further facts about the two managers *)

(** On a table labelled by position, the lookup of a label that is in the
    table decodes the row of that label. *)
Lemma entry_at_present `{C : Collaborators} (edited_data : EditedTable)
  (i : Z) (r : EditedRow) :
  range_indexed edited_data -> In (i, r) edited_data ->
  entry_at edited_data i =
  (entry_board <- get_board_by_name (Board r) ;;
   data <- decode (Data r) entry_board ;;
   Ok (Some {| info_Match := Match r; info_Team := Team r;
               info_Name := Name r; info_StartTime := StartTime r;
               info_Comments := Comments r;
               info_Board := board_name entry_board;
               info_Data := data |})).
Proof.
  intros Hc Hin. unfold entry_at, data_row_at.
  replace (isin i (index edited_data)) with true.
  - now rewrite (range_indexed_iloc _ i r Hc Hin).
  - symmetry. apply isin_true. unfold index.
    change i with (fst (i, r)). now apply in_map.
Qed.

(** [append] keeps the edited table labelled by position. *)
Lemma append_range_indexed `{C : Collaborators} (self : VerificationManager)
  (now : timestamp) (m t : Z) (n : string) :
  range_indexed (edited_entries self) ->
  range_indexed (edited_entries (snd (append self now m t n))).
Proof.
  intros Hc. unfold append.
  destruct (empty (match_row (edited_entries self) m t n)); cbn [snd].
  - apply concat_range_indexed.
  - exact Hc.
Qed.

(** [update] leaves the edited table labelled by position. *)
Lemma update_range_indexed `{C : Collaborators} (self self' : VerificationManager)
  (files : list (list string)) :
  update self files = Ok self' -> range_indexed (edited_entries self').
Proof.
  unfold update. destruct (make_all (read_all files)) as [raw|e]; cbn [bind];
    [|discriminate].
  intros H. inversion H; subst. apply merge_range_indexed.
Qed.

(** Unlike [search], [filter] keeps no row for a field given with an
    empty list. *)
Lemma filter_entries_empty_list (edited_data : EditedTable) :
  filter_entries edited_data
    {| by_match := None; by_team := Some []; by_name := None;
       by_board := None; by_edited := None |} = [].
Proof.
  unfold filter_entries. cbn [by_match by_team by_name by_board by_edited keep_isin].
  rewrite (filter_nil_iff _ edited_data); [reflexivity|]. reflexivity.
Qed.

(** * Further properties *)

(** ** Reading the lines of a file *)

Lemma append_empty_r (s : string) : (s ++ "")%string = s.
Proof. induction s as [|c s IH]; simpl; [reflexivity|now rewrite IH]. Qed.

Lemma join_empty_cons (x : string) (l : list string) :
  join "" (x :: l) = (x ++ join "" l)%string.
Proof.
  unfold join. destruct l as [|y l]; simpl; [now rewrite append_empty_r|reflexivity].
Qed.

Lemma split_two (sep : ascii) (a b : string) :
  exists p q rest, split sep (a ++ String sep b)%string = p :: q :: rest.
Proof.
  induction a as [|c a [p [q [rest IH]]]]; simpl.
  - rewrite Ascii.eqb_refl. pose proof (split_nonempty sep b) as Hne.
    destruct (split sep b) as [|q rest]; [congruence|]. now exists ""%string, q, rest.
  - destruct (Ascii.eqb c sep).
    + rewrite IH. now exists ""%string, p, (q :: rest).
    + rewrite IH. now exists (String c p), q, rest.
Qed.

Lemma read_one_line_no_comma (line : string) :
  free_of "," line = true -> read_one_line line = ""%string.
Proof. intros H. unfold read_one_line. now rewrite split_free. Qed.

Lemma strip_last_column (sep : ascii) (s t : string) :
  free_of sep t = true ->
  join "" (removelast (split sep (s ++ String sep t)%string)) = delete_char sep s.
Proof.
  intros Ht. induction s as [|c s IH].
  - simpl. rewrite Ascii.eqb_refl, (split_free _ _ Ht). reflexivity.
  - cbn [String.append split delete_char].
    destruct (split_two sep s t) as [p [q [rest Hs]]]. rewrite Hs in *.
    destruct (Ascii.eqb c sep).
    + change (removelast (""%string :: p :: q :: rest))
        with (""%string :: removelast (p :: q :: rest)).
      now rewrite join_empty_cons, IH.
    + change (removelast (String c p :: q :: rest))
        with (String c p :: removelast (q :: rest)).
      change (removelast (p :: q :: rest)) with (p :: removelast (q :: rest)) in IH.
      rewrite join_empty_cons in *. cbn [String.append]. now rewrite IH.
Qed.

(** X1: of a line, [read_one] keeps what precedes the last comma, and
    deletes every other comma of it. *)
Theorem read_one_line_last_column (s t : string) :
  free_of "," t = true ->
  read_one_line (s ++ "," ++ t)%string = delete_char "," s.
Proof. intros Ht. unfold read_one_line. now apply strip_last_column. Qed.

Lemma read_one_line_last_column_witness :
  read_one_line "5_200_Sam_0000001e_00000001_00ff_a,b,2018-03-01"
  = "5_200_Sam_0000001e_00000001_00ff_ab"%string.
Proof.
  apply (read_one_line_last_column "5_200_Sam_0000001e_00000001_00ff_a,b"
           "2018-03-01").
  reflexivity.
Defined.

(** ** The entries of all files *)

Lemma filter_keep_all {A} (f : A -> bool) (l : list A) :
  (forall x, In x l -> f x = true) -> filter f l = l.
Proof.
  induction l as [|x l IH]; intros H; simpl; [reflexivity|].
  rewrite (H x (or_introl eq_refl)), IH; [reflexivity|].
  intros y Hy. apply H. now right.
Qed.

Lemma filter_comm {A} (p q : A -> bool) (l : list A) :
  filter p (filter q l) = filter q (filter p l).
Proof.
  rewrite !filter_filter. apply filter_ext. intros x. apply andb_comm.
Qed.

Lemma unique_filter (q : string -> bool) (l : list string) :
  filter q (unique String.eqb l) = unique String.eqb (filter q l).
Proof.
  induction l as [|x l IH]; simpl; [reflexivity|].
  destruct (q x) eqn:Hq; simpl.
  - now rewrite filter_comm, IH.
  - rewrite filter_comm, IH. apply filter_keep_all.
    intros y Hy. apply (proj1 (unique_In String.eqb _ _ String.eqb_eq)) in Hy.
    apply filter_In in Hy. destruct Hy as [_ Hy].
    destruct (String.eqb_spec x y) as [->|]; [congruence|reflexivity].
Qed.

Lemma unique_NoDup (l : list string) : NoDup (unique String.eqb l).
Proof.
  induction l as [|x l IH]; simpl; constructor.
  - intros H. apply filter_In in H. destruct H as [_ H].
    now rewrite String.eqb_refl in H.
  - now apply NoDup_filter.
Qed.

Lemma read_all_from_unique (acc entries : list string) :
  read_all_from acc entries =
  acc ++ unique String.eqb
           (filter (fun e => matcher_match e && negb (isin_str e acc)) entries).
Proof.
  revert acc. induction entries as [|e rest IH]; intros acc; simpl.
  - now rewrite app_nil_r.
  - destruct (matcher_match e && negb (isin_str e acc)) eqn:He; [|apply IH].
    rewrite IH, <- app_assoc. cbn [app unique]. do 2 f_equal.
    rewrite unique_filter, filter_filter. f_equal. apply filter_ext.
    intros x. unfold isin_str. rewrite existsb_app. cbn [existsb].
    rewrite orb_false_r, negb_orb, (String.eqb_sym x e). apply andb_assoc.
Qed.

(** X2: the entries read from the files are the lines that pass the
    format test, each once, in the order of their first occurrence. *)
Theorem read_all_first_occurrences (files : list (list string)) :
  read_all files
  = unique String.eqb (filter matcher_match (flat_map read_one files)) /\
  NoDup (read_all files) /\
  (forall e, In e (read_all files) <->
             In e (flat_map read_one files) /\ matcher_match e = true).
Proof.
  assert (E : read_all files
              = unique String.eqb (filter matcher_match (flat_map read_one files))).
  { unfold read_all. rewrite read_all_from_unique. cbn [app].
    f_equal. apply filter_ext. intros x. cbn. now rewrite andb_true_r. }
  split; [exact E|]. rewrite E. split; [apply unique_NoDup|].
  intros e. rewrite (unique_In String.eqb _ _ String.eqb_eq). apply filter_In.
Qed.

(** X3: a file whose lines hold no comma gives no entry. *)
Theorem read_all_no_comma (files : list (list string)) :
  (forall f line, In f files -> In line f -> free_of "," line = true) ->
  read_all files = [].
Proof.
  intros H. unfold read_all. rewrite read_all_from_unique. cbn [app].
  rewrite filter_nil_iff; [reflexivity|].
  intros e He. apply in_flat_map in He. destruct He as [f [Hf He]].
  unfold read_one in He. apply in_map_iff in He. destruct He as [line [<- Hl]].
  now rewrite (read_one_line_no_comma line (H f line Hf Hl)).
Qed.

Lemma read_all_no_comma_witness :
  read_all [["5_200_Sam_0000001e_00000001_00ff_hello"%string]] = [].
Proof.
  apply read_all_no_comma. intros f line [<-|[]] [<-|[]]. reflexivity.
Defined.

(** ** The format test and the conversion *)

Lemma span_run (p : ascii -> bool) (run rest : string) :
  all_chars p run = true -> p "_"%char = false ->
  span p (run ++ String "_" rest)%string = (run, String "_"%char rest).
Proof.
  intros Hall Hu. induction run as [|c run IH]; simpl.
  - now rewrite Hu.
  - simpl in Hall. apply andb_true_iff in Hall. destruct Hall as [Hc Hr].
    now rewrite Hc, (IH Hr).
Qed.

Lemma run_then_underscore_run (p : ascii -> bool) (ok : nat -> bool)
  (run rest : string) :
  all_chars p run = true -> p "_"%char = false -> ok (String.length run) = true ->
  run_then_underscore p ok (run ++ String "_" rest)%string = Some rest.
Proof.
  intros Hall Hu Hok. unfold run_then_underscore.
  now rewrite (span_run p run rest Hall Hu), Hok.
Qed.

Lemma free_all_chars (s : string) :
  free_of "_" s = true -> all_chars (fun c => negb (Ascii.eqb c "_")) s = true.
Proof.
  induction s as [|c s IH]; simpl; [reflexivity|]. intros H.
  apply andb_true_iff in H. destruct H as [Hc Hs]. now rewrite Hc, IH.
Qed.

Lemma matcher_match_tokens (e : string) :
  matcher_match e = true -> exists m t n st bd d c, grammar_line e m t n st bd d c.
Proof.
  unfold matcher_match, opt_bind. intros H.
  destruct (run_then_underscore is_digit _ e) as [s1|] eqn:E1; [|discriminate].
  destruct (run_then_underscore is_digit _ s1) as [s2|] eqn:E2; [|discriminate].
  destruct (run_then_underscore _ _ s2) as [s3|] eqn:E3; [|discriminate].
  destruct (run_then_underscore is_hex _ s3) as [s4|] eqn:E4; [|discriminate].
  destruct (run_then_underscore is_hex _ s4) as [s5|] eqn:E5; [|discriminate].
  destruct (run_then_underscore is_hex _ s5) as [c|] eqn:E6; [|discriminate].
  apply run_then_underscore_spec in E1, E2, E3, E4, E5, E6.
  destruct E1 as [m [-> [Am Lm]]], E2 as [t [-> [At Lt]]],
           E3 as [n [-> [An Ln]]], E4 as [st [-> [Ast Lst]]],
           E5 as [bd [-> [Abd Lbd]]], E6 as [d [-> [Ad Ld]]].
  apply andb_true_iff in Lm, Lt. destruct Lm as [Lm1 Lm2], Lt as [Lt1 Lt2].
  apply Nat.leb_le in Lm1, Lm2, Lt1, Lt2, Ln. apply Nat.eqb_eq in Lst, Lbd, Ld.
  exists m, t, n, st, bd, d, c. unfold grammar_line.
  repeat split; try assumption; try reflexivity. now apply all_chars_free.
Qed.

Lemma tokens_matcher_match (e m t n st bd d c : string) :
  grammar_line e m t n st bd d c -> matcher_match e = true.
Proof.
  intros [-> [[Am [Lm1 Lm2]] [[At [Lt1 Lt2]] [[Fn Ln] [[Ast Lst] [[Abd Lbd] [Ad Ld]]]]]]].
  unfold matcher_match. cbn [String.append].
  rewrite (run_then_underscore_run is_digit _ m _ Am eq_refl)
    by (apply andb_true_iff; split; now apply Nat.leb_le).
  cbn [opt_bind].
  rewrite (run_then_underscore_run is_digit _ t _ At eq_refl)
    by (apply andb_true_iff; split; now apply Nat.leb_le).
  cbn [opt_bind].
  rewrite (run_then_underscore_run _ _ n _ (free_all_chars n Fn) eq_refl)
    by now apply Nat.leb_le.
  cbn [opt_bind].
  rewrite (run_then_underscore_run is_hex _ st _ Ast eq_refl)
    by now apply Nat.eqb_eq.
  cbn [opt_bind].
  rewrite (run_then_underscore_run is_hex _ bd _ Abd eq_refl)
    by now apply Nat.eqb_eq.
  cbn [opt_bind].
  rewrite (run_then_underscore_run is_hex _ d _ Ad eq_refl)
    by now apply Nat.eqb_eq.
  reflexivity.
Qed.

(** X4: of the lines of ASCII characters, on which [\d] is a digit from
    0 to 9, the format test accepts exactly those made of a match of one
    to three digits, a team of one to four digits, a name without
    underscore that is not empty, two groups of eight hexadecimal digits,
    hexadecimal data of a length that is a multiple of four, and any
    comments, joined by underscores. *)
Theorem matcher_match_grammar (e : string) :
  ascii_only e = true ->
  (matcher_match e = true <->
   exists m t n st bd d c, grammar_line e m t n st bd d c).
Proof.
  intros _. split; [apply matcher_match_tokens|].
  intros [m [t [n [st [bd [d [c H]]]]]]]. exact (tokens_matcher_match _ _ _ _ _ _ _ _ H).
Qed.

Lemma matcher_match_grammar_witness :
  exists m t n st bd d c,
    grammar_line "5_200_Sam_0000001e_00000001__hello_world" m t n st bd d c.
Proof.
  apply (matcher_match_grammar "5_200_Sam_0000001e_00000001__hello_world" eq_refl).
  reflexivity.
Defined.

(** *** The numbers of a line *)

Lemma digit_value_range (c : ascii) (d : Z) :
  digit_value c = Some d -> 0 <= d < 16.
Proof.
  unfold digit_value. 
  destruct ((48 <=? nat_of_ascii c) && (nat_of_ascii c <=? 57))%nat eqn:E1.
  - apply andb_true_iff in E1. destruct E1 as [H1 H2].
    apply Nat.leb_le in H1, H2. intros H. inversion H. lia.
  - destruct ((97 <=? nat_of_ascii c) && (nat_of_ascii c <=? 102))%nat eqn:E2.
    + apply andb_true_iff in E2. destruct E2 as [H1 H2].
      apply Nat.leb_le in H1, H2. intros H. inversion H. lia.
    + destruct ((65 <=? nat_of_ascii c) && (nat_of_ascii c <=? 70))%nat eqn:E3;
        [|discriminate].
      apply andb_true_iff in E3. destruct E3 as [H1 H2].
      apply Nat.leb_le in H1, H2. intros H. inversion H. lia.
Qed.

Lemma int_digits_bound (base : Z) (s : string) (acc z : Z) :
  0 < base -> 0 <= acc -> int_digits base acc s = Some z ->
  acc * base ^ Z.of_nat (String.length s) <= z
  < (acc + 1) * base ^ Z.of_nat (String.length s).
Proof.
  intros Hb. revert acc. induction s as [|c s IH]; intros acc Hacc H.
  - simpl in *. inversion H. lia.
  - cbn [int_digits] in H. destruct (digit_value c) as [d|] eqn:Hd; [|discriminate].
    destruct (Z.ltb_spec d base) as [Hlt|]; [|discriminate].
    apply digit_value_range in Hd.
    apply IH in H; [|nia].
    cbn [String.length]. rewrite Nat2Z.inj_succ, Z.pow_succ_r by lia.
    assert (Hp : 0 < base ^ Z.of_nat (String.length s)) by (apply Z.pow_pos_nonneg; lia).
    nia.
Qed.

Lemma int_of_bound (base : Z) (s : string) (z : Z) :
  0 < base -> int_of base s = Ok z ->
  0 <= z < base ^ Z.of_nat (String.length s).
Proof.
  intros Hb H. unfold int_of in H. destruct s as [|c s]; [discriminate|].
  destruct (int_digits base 0 (String c s)) as [z'|] eqn:E; [|discriminate].
  inversion H; subst. apply int_digits_bound in E; lia.
Qed.

Lemma first_piece_free_of (sep : ascii) (s : string) :
  free_of sep (first_piece sep s) = true.
Proof.
  unfold first_piece. induction s as [|c s IH]; simpl; [reflexivity|].
  destruct (Ascii.eqb c sep) eqn:E; [reflexivity|].
  destruct (split sep s) as [|p rest]; simpl in *; now rewrite E.
Qed.

Lemma grammar_line_make_columns `{C : Collaborators} (e m t n st bd d c : string) :
  grammar_line e m t n st bd d c ->
  exists zm zt zst zbd,
    (0 <= zm < 10 ^ Z.of_nat (String.length m)) /\
    (0 <= zt < 10 ^ Z.of_nat (String.length t)) /\
    (0 <= zst < 16 ^ 8) /\ (0 <= zbd < 16 ^ 8) /\
    make_columns e
    = (b <- get_board_by_id zbd ;;
       Ok {| Match := zm; Team := zt; Name := n;
             StartTime := display_time (timestamp_of_int zst);
             Board := board_name b;
             Data := d;
             Comments := first_piece "_" c |}).
Proof.
  intros [-> [[Am [Lm1 Lm2]] [[At [Lt1 Lt2]] [[Fn Ln] [[Ast Lst] [[Abd Lbd] [Ad Ld]]]]]]].
  destruct (int_of_run 10 is_digit m digit_value_digit Am Lm1) as [zm Hm].
  destruct (int_of_run 10 is_digit t digit_value_digit At Lt1) as [zt Ht].
  destruct (int_of_run 16 is_hex st digit_value_hex Ast) as [zst Hst]; [lia|].
  destruct (int_of_run 16 is_hex bd digit_value_hex Abd) as [zbd Hbd]; [lia|].
  exists zm, zt, zst, zbd.
  split; [apply int_of_bound; [lia|exact Hm]|].
  split; [apply int_of_bound; [lia|exact Ht]|].
  split; [apply int_of_bound in Hst; [now rewrite Lst in Hst|lia]|].
  split; [apply int_of_bound in Hbd; [now rewrite Lbd in Hbd|lia]|].
  apply make_columns_tokens; auto using hex_free.
  - apply hex_free. exact (all_chars_impl _ _ m is_digit_is_hex Am).
  - apply hex_free. exact (all_chars_impl _ _ t is_digit_is_hex At).
Qed.

Lemma pow10_le (n k : nat) : (n <= k)%nat -> 10 ^ Z.of_nat n <= 10 ^ Z.of_nat k.
Proof. intros H. apply Z.pow_le_mono_r; lia. Qed.

(** X5: the row made from a line that passed the format test has a match
    from 0 to 999, a team from 0 to 9999, a name that is not empty and has
    no underscore, hexadecimal data of a length that is a multiple of
    four, and comments without underscore. *)
Theorem make_columns_bounds `{C : Collaborators} (e : string) (row : Columns) :
  matcher_match e = true -> make_columns e = Ok row ->
  0 <= Match row <= 999 /\ 0 <= Team row <= 9999 /\
  Name row <> ""%string /\ free_of "_" (Name row) = true /\
  all_chars is_hex (Data row) = true /\
  Nat.modulo (String.length (Data row)) 4 = 0%nat /\
  free_of "_" (Comments row) = true.
Proof.
  intros Hm Hrow. apply matcher_match_tokens in Hm.
  destruct Hm as [m [t [n [st [bd [d [c G]]]]]]].
  destruct (grammar_line_make_columns e m t n st bd d c G)
    as [zm [zt [zst [zbd [Bm [Bt [_ [_ E]]]]]]]].
  destruct G as [_ [[_ [_ Lm]] [[_ [_ Lt]] [[Fn Ln] [_ [_ [Ad Ld]]]]]]].
  rewrite E in Hrow. destruct (get_board_by_id zbd) as [b|]; [|discriminate].
  cbn [bind] in Hrow. inversion Hrow; subst row. cbn.
  pose proof (pow10_le _ _ Lm) as Pm. pose proof (pow10_le _ _ Lt) as Pt.
  change (10 ^ Z.of_nat 3) with 1000 in Pm. change (10 ^ Z.of_nat 4) with 10000 in Pt.
  repeat split; try lia; try assumption.
  - intros ->. simpl in Ln. lia.
  - apply first_piece_free_of.
Qed.

Lemma make_columns_bounds_witness :
  0 <= 5 <= 999 /\ 0 <= 200 <= 9999 /\
  "Sam"%string <> ""%string /\ free_of "_" "Sam" = true /\
  all_chars is_hex "00ff" = true /\
  Nat.modulo (String.length "00ff") 4 = 0%nat /\
  free_of "_" "hello" = true.
Proof.
  exact (make_columns_bounds "5_200_Sam_0000001e_00000001_00ff_hello_world"
           {| Match := 5; Team := 200; Name := "Sam"; StartTime := "30";
              Board := "Comp"; Data := "00ff"; Comments := "hello" |}
           eq_refl eq_refl).
Defined.

(** ** [update] *)

Lemma read_all_matched (files : list (list string)) (e : string) :
  In e (read_all files) -> matcher_match e = true.
Proof.
  unfold read_all. rewrite read_all_from_unique. cbn [app]. intros H.
  apply (proj1 (unique_In String.eqb _ _ String.eqb_eq)) in H.
  apply filter_In in H. destruct H as [_ H].
  apply andb_true_iff in H. tauto.
Qed.

Lemma make_columns_matched_outcome `{C : Collaborators} (e : string) :
  matcher_match e = true ->
  (exists row, make_columns e = Ok row) \/
  (exists id err, get_board_by_id id = Raise err /\ make_columns e = Raise err).
Proof.
  intros H. apply matcher_match_tokens in H.
  destruct H as [m [t [n [st [bd [d [c G]]]]]]].
  destruct (grammar_line_make_columns e m t n st bd d c G)
    as [zm [zt [zst [zbd [_ [_ [_ [_ E]]]]]]]].
  rewrite E. destruct (get_board_by_id zbd) as [b|err] eqn:Hb; cbn [bind].
  - left. eexists. reflexivity.
  - right. now exists zbd, err.
Qed.

Lemma make_all_outcome `{C : Collaborators} (entries : list string) :
  (forall e, In e entries -> matcher_match e = true) ->
  (exists raw, make_all entries = Ok raw /\ length raw = length entries) \/
  (exists id err, get_board_by_id id = Raise err /\ make_all entries = Raise err).
Proof.
  induction entries as [|e rest IH]; intros H.
  - left. now exists [].
  - cbn [make_all].
    destruct (make_columns_matched_outcome e (H e (or_introl eq_refl)))
      as [[row Hr]|[id [err [Hid Hr]]]]; rewrite Hr; cbn [bind].
    + destruct IH as [[raw [Hraw Hlen]]|[id [err [Hid Hraw]]]].
      * intros x Hx. apply H. now right.
      * left. exists (row :: raw). rewrite Hraw. cbn. now rewrite Hlen.
      * right. exists id, err. now rewrite Hraw.
    + right. now exists id, err.
Qed.

(** X6: [update] raises nothing but an error of the board registry: the
    lines that reach the conversion have all their tokens, and their
    numbers are numbers. *)
Theorem update_raises_registry_error `{C : Collaborators}
  (self : VerificationManager) (files : list (list string)) (err : exn) :
  update self files = Raise err ->
  exists id, get_board_by_id id = Raise err.
Proof.
  unfold update. intros H.
  destruct (make_all_outcome (read_all files) (read_all_matched files))
    as [[raw [Hraw _]]|[id [err' [Hid Hraw]]]]; rewrite Hraw in H; cbn [bind] in H.
  - discriminate.
  - inversion H; subst. now exists id.
Qed.

Lemma update_raises_registry_error_witness :
  exists id, get_board_by_id id = Raise CollaboratorError.
Proof.
  exact (update_raises_registry_error sample_manager
           [["5_200_Sam_0000001e_00000002_00ff_hello,2018-03-01"%string]]
           CollaboratorError eq_refl).
Defined.

(** X7: when the registry knows every board id, [update] succeeds: the raw
    table gets one row for each entry read, and the edited table is the
    merge of the new raw table into the old edited table. *)
Theorem update_succeeds `{C : Collaborators}
  (self : VerificationManager) (files : list (list string)) :
  (forall id, exists b, get_board_by_id id = Ok b) ->
  exists self',
    update self files = Ok self' /\
    length (raw_entries self') = length (read_all files) /\
    edited_entries self' = merge (raw_entries self') (edited_entries self).
Proof.
  intros Htotal. unfold update.
  destruct (make_all_outcome (read_all files) (read_all_matched files))
    as [[raw [Hraw Hlen]]|[id [err [Hid _]]]].
  - rewrite Hraw. cbn [bind]. eexists. split; [reflexivity|]. now split.
  - destruct (Htotal id) as [b Hb]. congruence.
Qed.

Lemma update_succeeds_witness :
  exists self',
    @update sample_total_registry sample_manager sample_files = Ok self' /\
    length (raw_entries self') = 1%nat /\
    edited_entries self' = merge (raw_entries self') sample_edited.
Proof.
  apply (@update_succeeds sample_total_registry sample_manager sample_files).
  intros id. now exists "Comp"%string.
Defined.

Lemma merge_merge (raw : RawTable) (edited : EditedTable) :
  merge raw (merge raw edited) = merge raw edited.
Proof.
  unfold merge at 1. unfold concat_ignore_index.
  rewrite new_data_after_merge, app_nil_r.
  unfold merge, concat_ignore_index. now rewrite rows_reset_index.
Qed.

(** X8: a second [update] from the same files changes nothing. *)
Theorem update_idempotent `{C : Collaborators}
  (self self' : VerificationManager) (files : list (list string)) :
  update self files = Ok self' -> update self' files = Ok self'.
Proof.
  unfold update. destruct (make_all (read_all files)) as [raw|err]; cbn [bind];
    [|discriminate].
  intros H. inversion H; subst self'. cbn [edited_entries]. now rewrite merge_merge.
Qed.

Lemma update_idempotent_witness :
  update {| raw_entries := [{| Match := 5; Team := 200; Name := "Sam";
                               StartTime := "30"; Board := "Comp";
                               Data := "00ff"; Comments := "hello" |}];
            edited_entries := sample_edited |} sample_files
  = Ok {| raw_entries := [{| Match := 5; Team := 200; Name := "Sam";
                             StartTime := "30"; Board := "Comp";
                             Data := "00ff"; Comments := "hello" |}];
          edited_entries := sample_edited |}.
Proof.
  apply (update_idempotent sample_manager _ sample_files). reflexivity.
Defined.

(** ** Merging by position *)

Lemma enumerate_from_map {A B} (g : Z * A -> B) (l : list A) (n : Z) :
  enumerate_from n (map g (enumerate_from n l)) =
  map (fun ir => (fst ir, g ir)) (enumerate_from n l).
Proof.
  revert n. induction l as [|x l IH]; intros n; simpl; [reflexivity|].
  now rewrite IH.
Qed.

Lemma merge_empty (raw : RawTable) :
  merge raw [] =
  map (fun ir => (fst ir, unedited (fst ir) (snd ir))) (reset_index raw).
Proof.
  unfold merge, concat_ignore_index, new_data, referenced. cbn [rows map dropna app].
  rewrite filter_keep_all by reflexivity.
  unfold reset_index. apply enumerate_from_map.
Qed.

Lemma isin_labels (raw : RawTable) (n i : Z) :
  isin i (dropna (map (fun x : Z * Columns => Some (fst x)) (enumerate_from n raw)))
  = (n <=? i) && (i <? n + Z.of_nat (length raw)).
Proof.
  revert n. induction raw as [|x raw IH]; intros n.
  - simpl. destruct (Z.leb_spec n i), (Z.ltb_spec i (n + 0)); simpl;
      try reflexivity; lia.
  - cbn [enumerate_from map dropna fst]. unfold isin in *. cbn [existsb].
    rewrite IH. cbn [length].
    destruct (Z.eqb_spec i n), (Z.leb_spec (n + 1) i), (Z.leb_spec n i),
      (Z.ltb_spec i (n + 1 + Z.of_nat (length raw))),
      (Z.ltb_spec i (n + Z.of_nat (S (length raw)))); simpl; try reflexivity; lia.
Qed.

Lemma referenced_merge_empty (raw : RawTable) (i : Z) :
  isin i (referenced (merge raw [])) = (0 <=? i) && (i <? Z.of_nat (length raw)).
Proof.
  rewrite merge_empty. unfold referenced, rows, reset_index.
  rewrite !map_map. cbn [snd unedited RawIndex fst]. apply isin_labels.
Qed.

Lemma filter_beyond (k : Z) (refd : list Z) (raw : RawTable) (n : Z) :
  (forall i, isin i refd = (0 <=? i) && (i <? k)) -> 0 <= n ->
  filter (fun ir : Z * Columns => negb (isin (fst ir) refd)) (enumerate_from n raw)
  = enumerate_from (Z.max n k) (skipn (Z.to_nat (k - n)) raw).
Proof.
  intros Hrefd. revert n. induction raw as [|x raw IH]; intros n Hn.
  - now rewrite skipn_nil.
  - cbn [enumerate_from filter fst]. rewrite Hrefd, IH by lia.
    destruct (Z.leb_spec 0 n); [|lia]. cbn [andb].
    destruct (Z.ltb_spec n k); cbn [negb].
    + replace (Z.to_nat (k - n)) with (S (Z.to_nat (k - (n + 1)))) by lia.
      cbn [skipn]. f_equal. lia.
    + replace (Z.to_nat (k - n)) with 0%nat by lia.
      replace (Z.to_nat (k - (n + 1))) with 0%nat by lia.
      cbn [skipn enumerate_from]. replace (Z.max n k) with n by lia.
      replace (Z.max (n + 1) k) with (n + 1) by lia. reflexivity.
Qed.

(** X9: raw and edited rows are matched by position, not by content.
    After a first import of [raw1] into an empty edited table, the merge of
    a second import [raw2] keeps the edited rows of the first and appends
    edited rows for the raw rows at the positions from [length raw1] on,
    and for no other, whatever the first rows of [raw2] hold. *)
Theorem merge_second_import (raw1 raw2 : RawTable) :
  merge raw2 (merge raw1 []) =
  merge raw1 [] ++
  enumerate_from (Z.of_nat (length raw1))
    (map (fun ir => unedited (fst ir) (snd ir))
       (enumerate_from (Z.of_nat (length raw1)) (skipn (length raw1) raw2))).
Proof.
  unfold merge at 1.
  rewrite (range_indexed_app _ _ (merge_range_indexed raw1 [])).
  assert (Hlen : length (merge raw1 []) = length raw1).
  { rewrite merge_empty. unfold reset_index.
    now rewrite length_map, enumerate_from_length. }
  rewrite Hlen. do 2 f_equal.
  unfold new_data, reset_index.
  rewrite (filter_beyond (Z.of_nat (length raw1)) _ raw2 0
             (referenced_merge_empty raw1)) by lia.
  replace (Z.max 0 (Z.of_nat (length raw1))) with (Z.of_nat (length raw1)) by lia.
  replace (Z.to_nat (Z.of_nat (length raw1) - 0)) with (length raw1) by lia.
  reflexivity.
Qed.

(** ** References after a merge *)

Lemma isin_refs_to (i : Z) (l : list EditedRow) :
  isin i (dropna (map RawIndex l)) = negb (refs_to i l =? 0)%nat.
Proof.
  destruct (isin i (dropna (map RawIndex l))) eqn:E.
  - apply refs_to_pos in E. symmetry. apply negb_true_iff, Nat.eqb_neq. lia.
  - apply refs_to_zero in E. now rewrite E.
Qed.

(** X10: merge adds one reference to each raw index that has none and is
    an index of the raw table, and changes the number of references of no
    other index: it removes no reference and doubles none. *)
Theorem merge_refs_to (raw : RawTable) (edited : EditedTable) (i : Z) :
  refs_to i (rows (merge raw edited)) =
  (refs_to i (rows edited) +
   (if in_range_index i raw && (refs_to i (rows edited) =? 0)%nat then 1 else 0))%nat.
Proof.
  rewrite rows_merge, refs_to_app. f_equal.
  unfold new_data, reset_index. rewrite refs_to_new_rows.
  unfold referenced. rewrite isin_refs_to, negb_involutive.
  unfold in_range_index. now replace (0 + Z.of_nat (length raw)) with (Z.of_nat (length raw)) by lia.
Qed.

(** X11: when every index of the raw table is referenced already, merge
    leaves a table labelled by position as it is. *)
Theorem merge_nothing_new (raw : RawTable) (edited : EditedTable) :
  range_indexed edited ->
  (forall i, 0 <= i < Z.of_nat (length raw) -> (1 <= refs_to i (rows edited))%nat) ->
  merge raw edited = edited.
Proof.
  intros Hc Hall. unfold merge. rewrite (range_indexed_app _ _ Hc).
  assert (E : new_data raw edited = []).
  { unfold new_data. rewrite filter_nil_iff; [reflexivity|].
    intros [i x] Hin. cbn [fst]. apply enumerate_from_In in Hin.
    destruct Hin as [Hi _]. unfold referenced. rewrite isin_refs_to.
    specialize (Hall i ltac:(lia)).
    destruct (Nat.eqb_spec (refs_to i (rows edited)) 0); [lia|reflexivity]. }
  rewrite E. cbn [enumerate_from]. apply app_nil_r.
Qed.

Lemma merge_nothing_new_witness :
  merge (firstn 2 sample_raw) sample_edited = sample_edited.
Proof.
  apply merge_nothing_new; [reflexivity|].
  intros i Hi. simpl in Hi.
  assert (Hc : i = 0 \/ i = 1) by lia.
  destruct Hc as [ -> | -> ]; vm_compute; lia.
Defined.

(** ** Looking up merged rows *)

Lemma new_data_In (raw : RawTable) (edited : EditedTable) (row : EditedRow) :
  In row (new_data raw edited) ->
  exists i, 0 <= i < Z.of_nat (length raw) /\
            nth_error raw (Z.to_nat i) = Some (cols row) /\
            row = unedited i (cols row) /\
            isin i (referenced edited) = false.
Proof.
  unfold new_data. intros H. apply in_map_iff in H.
  destruct H as [[i x] [<- H]]. apply filter_In in H. destruct H as [Hin Hf].
  cbn [fst snd] in *. apply enumerate_from_In in Hin. destruct Hin as [Hi Hn].
  exists i. replace (i - 0) with i in Hn by lia.
  repeat split; try lia; try assumption. now apply negb_true_iff.
Qed.

Lemma float_column_app (a : EditedTable) (new : list EditedRow) :
  float_column (concat_ignore_index a new)
  = float_column a || existsb (fun r => match RawIndex r with
                                        | None => true
                                        | Some _ => false
                                        end) new.
Proof.
  unfold float_column, concat_ignore_index.
  now rewrite rows_reset_index, existsb_app.
Qed.

Lemma float_column_merge (raw : RawTable) (edited : EditedTable) :
  float_column (merge raw edited) = float_column edited.
Proof.
  unfold merge. rewrite float_column_app.
  replace (existsb _ (new_data raw edited)) with false; [apply orb_false_r|].
  symmetry. unfold new_data. induction (filter _ (reset_index raw)) as [|x l IH];
    [reflexivity|exact IH].
Qed.

Lemma float_column_RawIndex (a b : EditedTable) :
  map RawIndex (rows a) = map RawIndex (rows b) ->
  float_column a = float_column b.
Proof.
  unfold float_column. generalize (rows a) (rows b).
  induction l as [|x l IH]; intros [|y l'] H; try discriminate; [reflexivity|].
  cbn [map] in H. inversion H as [[Hx Hl]]. cbn [existsb].
  now rewrite Hx, (IH l' Hl).
Qed.

(** X12: a row appended by merge is the unedited copy of the raw row at
    its raw index.  Its lookup returns the entry of that raw row beside the
    entry of the copy, with the blank edit time, when no row of the edited
    table lacks a raw index; when one does, the column of raw indices
    holds floats and the lookup raises [TypeError]. *)
Theorem merge_appended_lookup `{C : Collaborators}
  (raw : RawTable) (edited : EditedTable) (l : Z) (row : EditedRow) :
  In (l, row) (merge raw edited) -> In row (new_data raw edited) ->
  exists i r,
    nth_error raw (Z.to_nat i) = Some r /\ 0 <= i /\
    row = unedited i r /\
    (float_column edited = false ->
     getitem {| raw_entries := raw; edited_entries := merge raw edited |} l
     = (e_raw <- Entry (RawSeries r) ;;
        e <- Entry (EditedSeries row) ;;
        Ok (Some e_raw, e, " "%string))) /\
    (float_column edited = true ->
     getitem {| raw_entries := raw; edited_entries := merge raw edited |} l
     = Raise TypeError).
Proof.
  intros Hin Hnew. destruct (new_data_In raw edited row Hnew)
    as [i [Hi [Hn [Hrow _]]]].
  exists i, (cols row). split; [exact Hn|]. split; [lia|]. split; [exact Hrow|].
  rewrite (getitem_range_indexed _ l row); [|apply merge_range_indexed|exact Hin].
  destruct row as [ri c ed]. unfold unedited in Hrow. cbn [cols] in *.
  inversion Hrow; subst ri ed.
  unfold decoded_entry. cbn [raw_entries edited_entries RawIndex Edited].
  rewrite float_column_merge.
  unfold in_range_index. zb_true (0 <=? i). zb_true (i <? Z.of_nat (length raw)).
  cbn [andb]. split; intros Hf; rewrite Hf; unfold iloc_key; [|reflexivity].
  destruct (py_item_in_range raw i Hi) as [x [Hx Hitem]].
  rewrite Hn in Hx. inversion Hx; subst x. rewrite Hitem. cbn [bind].
  destruct (Entry (RawSeries c)) as [e_raw|]; reflexivity.
Qed.

Lemma merge_appended_lookup_witness :
  getitem {| raw_entries := sample_raw;
             edited_entries := merge sample_raw (firstn 2 sample_edited) |} 2
  = Ok (Some (RawSeries (sample_columns 7 2001 "Bob")),
        EditedSeries (unedited 2 (sample_columns 7 2001 "Bob")), " "%string) /\
  getitem {| raw_entries := sample_raw;
             edited_entries := merge sample_raw sample_edited |} 3
  = Raise TypeError.
Proof.
  split.
  - destruct (merge_appended_lookup sample_raw (firstn 2 sample_edited) 2
                (unedited 2 (sample_columns 7 2001 "Bob")))
      as [i [r [Hn [Hi [Hrow [Hok _]]]]]].
    + simpl. tauto.
    + simpl. tauto.
    + rewrite (Hok eq_refl). inversion Hrow; subst. reflexivity.
  - destruct (merge_appended_lookup sample_raw sample_edited 3
                (unedited 2 (sample_columns 7 2001 "Bob")))
      as [i [r [_ [_ [_ [_ Hraise]]]]]].
    + simpl. tauto.
    + simpl. tauto.
    + exact (Hraise eq_refl).
Defined.

(** ** Manual rows and merge *)

Lemma referenced_app (a : EditedTable) (new : list EditedRow) :
  referenced (concat_ignore_index a new) = referenced a ++ dropna (map RawIndex new).
Proof.
  unfold referenced, concat_ignore_index.
  now rewrite rows_reset_index, map_app, dropna_app.
Qed.

Lemma new_data_referenced (raw : RawTable) (a b : EditedTable) :
  referenced a = referenced b -> new_data raw a = new_data raw b.
Proof. intros H. unfold new_data. now rewrite H. Qed.

(** X13: the row that [append] adds refers to no raw row, so a merge
    after [append] appends just the rows that a merge before it would have
    appended. *)
Theorem append_then_merge `{C : Collaborators} (self : VerificationManager)
  (now : timestamp) (m t : Z) (n : string) (raw : RawTable) :
  new_data raw (edited_entries (snd (append self now m t n)))
  = new_data raw (edited_entries self) /\
  rows (merge raw (edited_entries (snd (append self now m t n))))
  = rows (edited_entries (snd (append self now m t n)))
    ++ new_data raw (edited_entries self).
Proof.
  assert (E : new_data raw (edited_entries (snd (append self now m t n)))
              = new_data raw (edited_entries self)).
  { apply new_data_referenced. unfold append.
    destruct (empty (match_row (edited_entries self) m t n)); cbn [snd edited_entries];
      [|reflexivity].
    rewrite referenced_app. cbn. apply app_nil_r. }
  split; [exact E|]. now rewrite rows_merge, E.
Qed.

(** ** [__setitem__] *)

Lemma at_set_index {R} (df : DataFrame R) (l : Z) (f : R -> R) :
  index (at_set df l f) = index df.
Proof.
  unfold index, at_set. rewrite map_map. apply map_ext.
  intros [l' r]. cbn [fst]. now destruct (l' =? l).
Qed.

Lemma at_set_nth {R} (df : DataFrame R) (l : Z) (f : R -> R)
  (p : nat) (l' : Z) (r : R) :
  nth_error df p = Some (l', r) ->
  nth_error (at_set df l f) p = Some (l', if l' =? l then f r else r).
Proof.
  intros H. unfold at_set. rewrite nth_error_map, H. cbn [option_map fst snd].
  now destruct (l' =? l).
Qed.

Lemma at_set_enumerate {R} (rs : list R) (n l : Z) (f : R -> R) :
  at_set (enumerate_from n rs) l f =
  enumerate_from n (rows (at_set (enumerate_from n rs) l f)).
Proof.
  revert n. induction rs as [|x rs IH]; intros n; [reflexivity|].
  cbn [enumerate_from at_set map rows fst snd].
  fold (at_set (enumerate_from (n + 1) rs) l f).
  fold (rows (at_set (enumerate_from (n + 1) rs) l f)).
  rewrite <- IH. now destruct (n =? l).
Qed.

Lemma at_set_range_indexed {R} (df : DataFrame R) (l : Z) (f : R -> R) :
  range_indexed df -> range_indexed (at_set df l f).
Proof.
  intros Hc. unfold range_indexed. rewrite Hc at 1 2. apply at_set_enumerate.
Qed.

Lemma at_set_In {R} (df : DataFrame R) (l : Z) (f : R -> R) (r : R) :
  In (l, r) df -> In (l, f r) (at_set df l f).
Proof.
  intros H. unfold at_set. apply in_map_iff. exists (l, r).
  cbn [fst snd]. now rewrite Z.eqb_refl.
Qed.

Section SetItemFacts.
Context `{O : EntryObject}.

Lemma set_row_RawIndex (df : EditedTable) (l : Z) (v : entry) (s : string) :
  map RawIndex (rows (at_set df l (set_row v s))) = map RawIndex (rows df).
Proof.
  unfold rows, at_set. rewrite !map_map. apply map_ext.
  intros [l' r]. cbn [fst snd]. now destruct (l' =? l).
Qed.

Lemma setitem_present (self : VerificationManager) (i : Z) (value v : entry)
  (now : timestamp) :
  In i (index (edited_entries self)) -> encode value = Ok v ->
  setitem self i value now =
  Ok {| raw_entries := raw_entries self;
        edited_entries :=
          at_set (edited_entries self) i (set_row v (display_time now)) |}.
Proof.
  intros Hin Hv. unfold setitem. rewrite (proj2 (isin_true _ _) Hin), Hv.
  reflexivity.
Qed.

Lemma setitem_ok (self self' : VerificationManager) (i : Z) (value : entry)
  (now : timestamp) :
  setitem self i value now = Ok self' ->
  In i (index (edited_entries self)) /\
  exists v, encode value = Ok v /\
    self' = {| raw_entries := raw_entries self;
               edited_entries :=
                 at_set (edited_entries self) i (set_row v (display_time now)) |}.
Proof.
  unfold setitem. destruct (isin i (index (edited_entries self))) eqn:E;
    [|discriminate].
  apply isin_true in E. destruct (encode value) as [v|]; cbn [bind]; [|discriminate].
  intros H. inversion H. split; [exact E|]. now exists v.
Qed.
End SetItemFacts.

(** X14: [__setitem__] writes one row and nothing else: the raw table,
    the labels and every row of another label stay as they are, and the
    row of the label keeps its raw index and its board, takes its other
    fields from the encoded entry and the edit time from the clock. *)
Theorem setitem_frame `{O : EntryObject}
  (self self' : VerificationManager) (i : Z) (value : entry) (now : timestamp) :
  setitem self i value now = Ok self' ->
  exists v, encode value = Ok v /\
    raw_entries self' = raw_entries self /\
    index (edited_entries self') = index (edited_entries self) /\
    (forall p l r,
       nth_error (edited_entries self) p = Some (l, r) ->
       exists r',
         nth_error (edited_entries self') p = Some (l, r') /\
         (l <> i -> r' = r) /\
         (l = i ->
          RawIndex r' = RawIndex r /\ Board r' = Board r /\
          Match r' = entry_match v /\ Team r' = entry_team v /\
          Name r' = entry_name v /\ StartTime r' = entry_start_time v /\
          Comments r' = entry_comments v /\ Data r' = entry_encoded_data v /\
          Edited r' = display_time now)).
Proof.
  intros H. apply setitem_ok in H. destruct H as [_ [v [Hv ->]]].
  exists v. split; [exact Hv|]. split; [reflexivity|].
  split; [apply at_set_index|].
  intros p l r Hn. cbn [edited_entries].
  eexists. split; [apply (at_set_nth _ _ _ _ _ _ Hn)|].
  destruct (Z.eqb_spec l i) as [->|Hne]; split.
  - intros Hne. now contradiction Hne.
  - intros _. cbn. tauto.
  - reflexivity.
  - intros He. now contradiction Hne.
Qed.

Lemma setitem_frame_witness :
  exists v, encode sample_value = Ok v /\
    raw_entries sample_written = sample_raw /\
    index (edited_entries sample_written) = [0; 1; 2].
Proof.
  assert (H : setitem sample_manager 1 sample_value sample_now = Ok sample_written)
    by reflexivity.
  destruct (setitem_frame sample_manager sample_written 1 sample_value sample_now H)
    as [v [Hv [Hr [Hi _]]]].
  exists v. split; [exact Hv|]. split; [exact Hr|exact Hi].
Defined.

(** X15: on a table labelled by position, the lookup of a label after
    [__setitem__] at that label does for the row as written what a lookup
    does for a row: it returns its entry with the edit time of the write,
    or it raises, as with [TypeError] when the row has a raw row and some
    row of the table has no raw index. *)
Theorem setitem_getitem `{O : EntryObject}
  (self : VerificationManager) (i : Z) (r : EditedRow) (value v : entry)
  (now : timestamp) :
  range_indexed (edited_entries self) -> In (i, r) (edited_entries self) ->
  encode value = Ok v ->
  exists self',
    setitem self i value now = Ok self' /\
    range_indexed (edited_entries self') /\
    float_column (edited_entries self') = float_column (edited_entries self) /\
    getitem self' i = decoded_entry self' (set_row v (display_time now) r) /\
    (forall raw e stamp,
       getitem self' i = Ok (raw, e, stamp) ->
       stamp = display_time now /\
       Entry (EditedSeries (set_row v (display_time now) r)) = Ok e) /\
    (forall ri, RawIndex r = Some ri ->
       in_range_index ri (raw_entries self) = true ->
       float_column (edited_entries self) = true ->
       getitem self' i = Raise TypeError).
Proof.
  intros Hc Hin Hv.
  assert (Hl : In i (index (edited_entries self))).
  { unfold index. change i with (fst (i, r)). now apply in_map. }
  eexists. split; [apply (setitem_present self i value v now Hl Hv)|].
  cbn [edited_entries].
  set (self' := {| raw_entries := raw_entries self;
                   edited_entries :=
                     at_set (edited_entries self) i
                            (set_row v (display_time now)) |}).
  assert (Hc' : range_indexed (edited_entries self'))
    by (cbn [edited_entries self']; now apply at_set_range_indexed).
  assert (Hf : float_column (edited_entries self')
               = float_column (edited_entries self)).
  { cbn [edited_entries self']. apply float_column_RawIndex.
    apply set_row_RawIndex. }
  assert (G : getitem self' i
              = decoded_entry self' (set_row v (display_time now) r)).
  { apply (getitem_range_indexed self' i _ Hc').
    cbn [edited_entries self']. now apply at_set_In. }
  split; [exact Hc'|]. split; [exact Hf|]. split; [exact G|]. split.
  - intros raw e stamp H. rewrite G in H. unfold decoded_entry in H.
    destruct (match RawIndex (set_row v (display_time now) r) with
              | Some ri => _ | None => _ end) as [x|]; cbn [bind] in H;
      [|discriminate].
    destruct (Entry (EditedSeries (set_row v (display_time now) r))) as [e'|];
      cbn [bind] in H; [|discriminate].
    inversion H; subst. now split.
  - intros ri Hri Hrange Hfloat. rewrite G. unfold decoded_entry.
    cbn [set_row RawIndex raw_entries self']. rewrite Hri, Hrange.
    fold self'. now rewrite Hf, Hfloat.
Qed.

Lemma setitem_getitem_witness :
  (exists self',
     setitem sample_imported 1 sample_value sample_now = Ok self' /\
     getitem self' 1
     = Ok (Some (RawSeries (sample_columns 6 20 "Ann")),
           EditedSeries
             (set_row sample_value (display_time sample_now)
                {| RawIndex := Some 1; cols := sample_columns 6 20 "Ann";
                   Edited := " " |}),
           display_time sample_now)) /\
  (exists self',
     setitem sample_manager 1 sample_value sample_now = Ok self' /\
     getitem self' 1 = Raise TypeError).
Proof.
  split.
  - destruct (setitem_getitem sample_imported 1
                {| RawIndex := Some 1; cols := sample_columns 6 20 "Ann"; Edited := " " |}
                sample_value sample_value sample_now)
      as [self' [H1 [_ [_ [H4 _]]]]].
    + reflexivity.
    + simpl. tauto.
    + reflexivity.
    + exists self'. split; [exact H1|]. rewrite H4.
      assert (E : setitem sample_imported 1 sample_value sample_now
                  = Ok {| raw_entries := sample_raw;
                          edited_entries :=
                            at_set (firstn 2 sample_edited) 1
                              (set_row sample_value (display_time sample_now)) |})
        by reflexivity.
      rewrite E in H1. inversion H1; subst self'. reflexivity.
  - destruct (setitem_getitem sample_manager 1
                {| RawIndex := Some 1; cols := sample_columns 6 20 "Ann"; Edited := " " |}
                sample_value sample_value sample_now)
      as [self' [H1 [_ [_ [_ [_ H6]]]]]].
    + reflexivity.
    + simpl. tauto.
    + reflexivity.
    + exists self'. split; [exact H1|]. apply (H6 1); reflexivity.
Defined.

(** X16: [__setitem__] succeeds exactly when the label is in the edited
    table and the entry can be encoded; for a label that is not in the
    table it raises [IndexError], whatever the entry. *)
Theorem setitem_outcome `{O : EntryObject}
  (self : VerificationManager) (i : Z) (value : entry) (now : timestamp) :
  ((exists self', setitem self i value now = Ok self') <->
   In i (index (edited_entries self)) /\ exists v, encode value = Ok v) /\
  (~ In i (index (edited_entries self)) ->
   setitem self i value now = Raise IndexError).
Proof.
  split; [split|].
  - intros [self' H]. apply setitem_ok in H. destruct H as [Hin [v [Hv _]]].
    split; [exact Hin|now exists v].
  - intros [Hin [v Hv]]. eexists. apply (setitem_present self i value v now Hin Hv).
  - intros Hn. unfold setitem. now rewrite (isin_false _ _ Hn).
Qed.

Lemma setitem_outcome_witness :
  setitem sample_manager 7
    sample_value sample_now = Raise IndexError.
Proof.
  apply setitem_outcome. simpl. intros [H|[H|[H|[]]]]; discriminate.
Defined.

(** X17: an edit does not change which raw rows are referenced, so a merge
    after [__setitem__] appends just the rows that a merge before it would
    have appended, behind the edited rows. *)
Theorem setitem_then_merge `{O : EntryObject}
  (self self' : VerificationManager) (i : Z) (value : entry) (now : timestamp)
  (raw : RawTable) :
  setitem self i value now = Ok self' ->
  new_data raw (edited_entries self') = new_data raw (edited_entries self) /\
  rows (merge raw (edited_entries self'))
  = rows (edited_entries self') ++ new_data raw (edited_entries self).
Proof.
  intros H. apply setitem_ok in H. destruct H as [_ [v [_ ->]]].
  cbn [edited_entries].
  assert (E : new_data raw (at_set (edited_entries self) i
                              (set_row v (display_time now)))
              = new_data raw (edited_entries self)).
  { apply new_data_referenced. unfold referenced. now rewrite set_row_RawIndex. }
  split; [exact E|]. now rewrite rows_merge, E.
Qed.

Lemma setitem_then_merge_witness :
  new_data sample_raw (edited_entries sample_written)
  = new_data sample_raw sample_edited.
Proof.
  assert (H : setitem sample_manager 1 sample_value sample_now = Ok sample_written)
    by reflexivity.
  apply (setitem_then_merge sample_manager sample_written 1 sample_value
           sample_now sample_raw H).
Defined.

(** ** [EntryManager.__init__] *)

(** X18: a database without the table of edited entries is loaded like
    one with an empty table: every raw row gets one unedited row, at its
    position and with its position as raw index. *)
Theorem init_edited_without_table (original_data : RawTable) :
  init_edited original_data None = init_edited original_data (Some []) /\
  rows (init_edited original_data None)
  = map (fun ir => unedited (fst ir) (snd ir)) (reset_index original_data) /\
  range_indexed (init_edited original_data None) /\
  (forall i, 0 <= i < Z.of_nat (length original_data) ->
             refs_to i (rows (init_edited original_data None)) = 1%nat).
Proof.
  assert (E : init_edited original_data None = merge original_data []).
  { cbn [init_edited]. now rewrite merge_empty. }
  split; [exact E|]. rewrite E. split; [|split].
  - rewrite merge_empty. unfold rows. rewrite map_map. reflexivity.
  - apply merge_range_indexed.
  - intros i Hi. rewrite rows_merge, refs_to_app.
    unfold new_data, reset_index. rewrite refs_to_new_rows.
    zb_true (0 <=? i). zb_true (i <? 0 + Z.of_nat (length original_data)).
    reflexivity.
Qed.

(** ** [filter] *)

Lemma keep_one_of {A} (rule : option (list A)) (col : EditedRow -> A)
  (mem : A -> list A -> bool) (df : EditedTable) :
  keep_isin rule col mem df = filter (fun lr => one_of mem rule (col (snd lr))) df.
Proof. destruct rule; cbn [keep_isin one_of]; [reflexivity|now rewrite filter_all]. Qed.

Lemma filter_entries_filter (edited_data : EditedTable) (filters : Criteria Z) :
  filter_entries edited_data filters =
  map filtered_row
    (sort_values (filter (fun lr => exact_match filters (snd lr)) edited_data)).
Proof.
  unfold filter_entries. rewrite !keep_one_of, !filter_filter.
  do 2 f_equal. apply filter_ext. intros lr. unfold exact_match.
  now rewrite !andb_assoc.
Qed.

Lemma sorted_map_filtered (df : EditedTable) :
  StronglySorted rows_le df -> StronglySorted filtered_le (map filtered_row df).
Proof.
  induction 1 as [|x l Hs IH Hall]; cbn [map]; constructor; [exact IH|].
  apply Forall_map. eapply Forall_impl; [|exact Hall]. intros y Hy. exact Hy.
Qed.

(** X19: [filter] returns, sorted ascending by (Match, Team), the rows
    whose value in each given field is one of the values given for it,
    each with its label in the column [index]; a field given with an
    empty list leaves no row. *)
Theorem filter_entries_exact (edited_data : EditedTable) (filters : Criteria Z) :
  (forall fr, In fr (filter_entries edited_data filters) <->
     exists lr, In lr edited_data /\ exact_match filters (snd lr) = true /\
                fr = filtered_row lr) /\
  Permutation (filter_entries edited_data filters)
    (map filtered_row (filter (fun lr => exact_match filters (snd lr)) edited_data)) /\
  StronglySorted filtered_le (filter_entries edited_data filters) /\
  (by_team filters = Some [] -> filter_entries edited_data filters = []).
Proof.
  rewrite filter_entries_filter. split; [|split; [|split]].
  - intros fr. rewrite in_map_iff. split.
    + intros [lr [<- Hlr]].
      apply (Permutation_in _ (sort_values_perm _)) in Hlr.
      apply filter_In in Hlr. exists lr. tauto.
    + intros [lr [Hin [Hm ->]]]. exists lr. split; [reflexivity|].
      apply (Permutation_in _ (Permutation_sym (sort_values_perm _))).
      apply filter_In. now split.
  - apply Permutation_map, sort_values_perm.
  - apply sorted_map_filtered, sort_values_sorted.
  - intros Ht. rewrite filter_nil_iff; [reflexivity|].
    intros lr _. unfold exact_match. rewrite Ht. cbn [one_of isin existsb].
    now rewrite andb_false_r.
Qed.

Lemma filter_entries_exact_witness :
  filter_entries sample_edited
    {| by_match := None; by_team := Some []; by_name := None;
       by_board := None; by_edited := None |} = [].
Proof.
  apply (filter_entries_exact sample_edited). reflexivity.
Defined.

(** ** Labels and positions *)

Lemma data_row_at_nth (edited_data : EditedTable) (i : Z) (r : EditedRow) :
  In i (index edited_data) -> 0 <= i ->
  nth_error (rows edited_data) (Z.to_nat i) = Some r ->
  data_row_at edited_data i = Ok (Some r).
Proof.
  intros Hin Hi Hr. unfold data_row_at. rewrite (proj2 (isin_true _ _) Hin).
  unfold iloc.
  assert (Hlen : (Z.to_nat i < length (rows edited_data))%nat)
    by (apply nth_error_Some; now rewrite Hr).
  destruct (py_item_in_range (rows edited_data) i) as [x [Hx Hitem]]; [lia|].
  rewrite Hr in Hx. inversion Hx; subst. now rewrite Hitem.
Qed.

Lemma data_row_at_beyond (edited_data : EditedTable) (i : Z) :
  In i (index edited_data) -> Z.of_nat (length edited_data) <= i ->
  data_row_at edited_data i = Raise IndexError.
Proof.
  intros Hin Hbig. unfold data_row_at. rewrite (proj2 (isin_true _ _) Hin).
  unfold iloc, py_item, rows. rewrite length_map.
  zb_true (0 <=? i). zb_false (i <? Z.of_nat (length edited_data)).
  zb_false (i <? 0). cbn [andb]. now rewrite andb_false_r.
Qed.

(** X20: the lookup of a label tests the label and then reads the
    position.  When the label is in the table and is a position of it,
    [data_row_at] returns the row at that position, whatever its label;
    when the label is in the table and is beyond the last position, the
    lookup raises [IndexError]. *)
Theorem data_row_at_position (edited_data : EditedTable) (i : Z) :
  In i (index edited_data) -> 0 <= i ->
  (forall r, nth_error (rows edited_data) (Z.to_nat i) = Some r ->
             data_row_at edited_data i = Ok (Some r)) /\
  (Z.of_nat (length edited_data) <= i ->
   data_row_at edited_data i = Raise IndexError).
Proof.
  intros Hin Hi. split.
  - intros r. now apply data_row_at_nth.
  - now apply data_row_at_beyond.
Qed.

Lemma data_row_at_position_witness :
  data_row_at sample_swapped 0
  = Ok (Some {| RawIndex := Some 0; cols := sample_columns 5 200 "Sam";
                Edited := " " |}) /\
  data_row_at sample_dropped 2 = Raise IndexError.
Proof.
  split.
  - apply (data_row_at_position sample_swapped 0); [simpl; tauto|lia|reflexivity].
  - apply (data_row_at_position sample_dropped 2); [simpl; tauto|lia|simpl; lia].
Defined.

(** ** Navigation in a view *)

Lemma list_index_In (x : Z) (l : list Z) :
  In x l -> exists p, list_index x l = Ok p /\ nth_error l p = Some x /\
                      forall q, (q < p)%nat -> nth_error l q <> Some x.
Proof.
  induction l as [|y l IH]; [contradiction|]. intros Hin. simpl.
  destruct (Z.eqb_spec y x) as [->|Hne].
  - exists 0%nat. repeat split. intros q Hq. lia.
  - destruct Hin as [H|H]; [congruence|]. destruct (IH H) as [p [Hp [Hn Hf]]].
    exists (S p). rewrite Hp. repeat split; [exact Hn|].
    intros [|q] Hq; simpl; [congruence|]. apply Hf. lia.
Qed.

Lemma list_index_nodup (x : Z) (l : list Z) (p : nat) :
  NoDup l -> nth_error l p = Some x -> list_index x l = Ok p.
Proof.
  intros Hnd Hp. apply list_index_first; [exact Hp|].
  intros q Hq Hx. assert (Hlen : (q < length l)%nat)
    by (apply nth_error_Some; now rewrite Hx).
  pose proof (proj1 (NoDup_nth_error l) Hnd q p Hlen) as H.
  rewrite Hx, Hp in H. specialize (H eq_refl). lia.
Qed.

(** X21: navigation wraps around.  From an identity of the view, an
    offset that is a multiple of the length of the view leads to the entry
    of that identity itself, and two offsets that differ by such a multiple
    lead to the same entry. *)
Theorem get_relative_entry_cycle `{C : Collaborators}
  (edited_data : EditedTable) (view : list FilteredRow) (cur off k : Z) :
  In cur (map index_col view) ->
  get_relative_entry edited_data view cur (k * Z.of_nat (length view))
  = entry_at edited_data cur /\
  get_relative_entry edited_data view cur (off + k * Z.of_nat (length view))
  = get_relative_entry edited_data view cur off.
Proof.
  intros Hin. set (indices := map index_col view) in *.
  assert (Hlen : length indices = length view) by apply length_map.
  destruct (list_index_In cur indices Hin) as [p [Hp [Hn _]]].
  assert (Hpl : (p < length indices)%nat) by (apply nth_error_Some; now rewrite Hn).
  assert (E : forall o, get_relative_entry edited_data view cur o =
                        (i <- py_item indices
                                ((Z.of_nat p + o) mod Z.of_nat (length indices)) ;;
                         entry_at edited_data i)).
  { intros o. unfold get_relative_entry. fold indices.
    replace (length indices =? 0)%nat with false
      by (symmetry; apply Nat.eqb_neq; lia).
    cbn [negb]. now rewrite (proj2 (isin_true _ _) Hin), Hp. }
  rewrite !E, <- Hlen. split.
  - rewrite Z.mod_add by lia. rewrite Z.mod_small by lia.
    destruct (py_item_in_range indices (Z.of_nat p)) as [x [Hx Hitem]]; [lia|].
    rewrite Nat2Z.id, Hn in Hx. inversion Hx; subst. now rewrite Hitem.
  - now rewrite Z.add_assoc, Z.mod_add by lia.
Qed.

Lemma get_relative_entry_cycle_witness :
  get_relative_entry sample_edited sample_view 11 3 = entry_at sample_edited 11 /\
  get_relative_entry sample_edited sample_view 11 (1 + (-1) * 3)
  = get_relative_entry sample_edited sample_view 11 1.
Proof.
  split.
  - apply (get_relative_entry_cycle sample_edited sample_view 11 0 1).
    simpl. tauto.
  - apply (get_relative_entry_cycle sample_edited sample_view 11 1 (-1)).
    simpl. tauto.
Defined.

(** X22: steps of navigation add up.  In a view without repeated
    identities, the step by [a] from an identity of the view leads to the
    entry of an identity [j] of the view from which the step by [b] leads
    where the step by [a + b] leads from the first; so [previous] from the
    entry reached by [next] is the entry one started from. *)
Theorem get_relative_entry_steps `{C : Collaborators}
  (edited_data : EditedTable) (view : list FilteredRow) (cur a : Z) :
  NoDup (map index_col view) -> In cur (map index_col view) ->
  exists j,
    In j (map index_col view) /\
    get_relative_entry edited_data view cur a = entry_at edited_data j /\
    (forall b, get_relative_entry edited_data view j b
               = get_relative_entry edited_data view cur (a + b)) /\
    (a = 1 -> previous edited_data view j = entry_at edited_data cur).
Proof.
  intros Hnd Hin. set (indices := map index_col view) in *.
  destruct (list_index_In cur indices Hin) as [p [Hp [Hn _]]].
  assert (Hpl : (p < length indices)%nat) by (apply nth_error_Some; now rewrite Hn).
  assert (E : forall c q o, In c indices -> list_index c indices = Ok q ->
                get_relative_entry edited_data view c o =
                (i <- py_item indices
                        ((Z.of_nat q + o) mod Z.of_nat (length indices)) ;;
                 entry_at edited_data i)).
  { intros c q o Hc Hq. unfold get_relative_entry. fold indices.
    replace (length indices =? 0)%nat with false
      by (symmetry; apply Nat.eqb_neq; lia).
    cbn [negb]. now rewrite (proj2 (isin_true _ _) Hc), Hq. }
  set (q := (Z.of_nat p + a) mod Z.of_nat (length indices)).
  assert (Hq : 0 <= q < Z.of_nat (length indices))
    by (apply Z.mod_pos_bound; lia).
  destruct (py_item_in_range indices q Hq) as [j [Hj Hitem]].
  assert (Hjin : In j indices) by (eapply nth_error_In; exact Hj).
  assert (Hjq : list_index j indices = Ok (Z.to_nat q))
    by now apply list_index_nodup.
  assert (Hsteps : forall b, get_relative_entry edited_data view j b
                             = get_relative_entry edited_data view cur (a + b)).
  { intros b. rewrite (E j (Z.to_nat q) b Hjin Hjq), (E cur p (a + b) Hin Hp).
    rewrite Z2Nat.id by lia. unfold q.
    rewrite Z.add_mod_idemp_l by lia. now rewrite Z.add_assoc. }
  exists j. split; [exact Hjin|]. split; [|split; [exact Hsteps|]].
  - rewrite (E cur p a Hin Hp). fold q. now rewrite Hitem.
  - intros ->. unfold previous. rewrite Hsteps.
    rewrite (E cur p (1 + -1) Hin Hp). replace (Z.of_nat p + (1 + -1)) with (Z.of_nat p) by lia.
    rewrite Z.mod_small by lia.
    destruct (py_item_in_range indices (Z.of_nat p)) as [x [Hx Hi]]; [lia|].
    rewrite Nat2Z.id, Hn in Hx. inversion Hx; subst. now rewrite Hi.
Qed.

Lemma get_relative_entry_steps_witness :
  exists j,
    In j (map index_col sample_view) /\
    get_relative_entry sample_edited sample_view 12 1 = entry_at sample_edited j /\
    (forall b, get_relative_entry sample_edited sample_view j b
               = get_relative_entry sample_edited sample_view 12 (1 + b)) /\
    (1 = 1 -> previous sample_edited sample_view j = entry_at sample_edited 12).
Proof.
  apply (get_relative_entry_steps sample_edited sample_view 12 1).
  - simpl. repeat constructor; simpl; intuition discriminate.
  - simpl. tauto.
Defined.

(** ** Removing a row *)

Lemma str_eq_true (s : string) (v : pyval) : str_eq s v = true <-> v = PyStr s.
Proof.
  destruct v as [z|t]; simpl; [split; discriminate|].
  rewrite String.eqb_eq. split; [now intros ->|]. intros H. now inversion H.
Qed.

Lemma label_not_in {R} (df : DataFrame R) (i : Z) :
  ~ In i (index df) ->
  filter (fun lr : Z * R => negb (Z.eqb (fst lr) i)) df = df.
Proof.
  intros H. apply filter_keep_all. intros [l r] Hin. cbn [fst].
  destruct (Z.eqb_spec l i) as [->|]; [|reflexivity].
  exfalso. apply H. unfold index. change i with (fst (i, r)). now apply in_map.
Qed.

(** With unique labels, dropping a label takes one row out of the table
    and leaves the others in their order. *)
Lemma drop_label_split {R} (df : DataFrame R) (i : Z) (r : R) :
  NoDup (index df) -> In (i, r) df ->
  exists a b, df = a ++ (i, r) :: b /\
              filter (fun lr : Z * R => negb (Z.eqb (fst lr) i)) df = a ++ b /\
              ~ In i (index a) /\ ~ In i (index b).
Proof.
  intros Hnd Hin. apply in_split in Hin. destruct Hin as [a [b ->]].
  unfold index in Hnd. rewrite map_app in Hnd. cbn [map fst] in Hnd.
  pose proof (NoDup_remove_2 _ _ _ Hnd) as Hni.
  assert (Ha : ~ In i (index a)) by (intros H; apply Hni, in_or_app; now left).
  assert (Hb : ~ In i (index b)) by (intros H; apply Hni, in_or_app; now right).
  exists a, b. split; [reflexivity|]. split; [|now split].
  rewrite filter_app. cbn [filter fst]. rewrite Z.eqb_refl. cbn [negb].
  now rewrite (label_not_in a i Ha), (label_not_in b i Hb).
Qed.

(** X23: on a table with unique labels, [remove_entry] at a label of the
    table removes the row of that label exactly when the three given
    values are the strings of its match, team and name; then the table
    has one row less, the label is gone, and every other row is still
    there under its label and in its place; in every other case the table
    is returned as it is. *)
Theorem remove_entry_effect (edited_data : EditedTable) (m t n : pyval)
  (i : Z) (r : EditedRow) :
  NoDup (index edited_data) -> In (i, r) edited_data ->
  (m = PyStr (str_of_int (Match r)) /\ t = PyStr (str_of_int (Team r)) /\
   n = PyStr (Name r) ->
   exists a b,
     edited_data = a ++ (i, r) :: b /\
     remove_entry edited_data m t n i = Ok (a ++ b) /\
     ~ In i (index (a ++ b)) /\
     (length (a ++ b) + 1 = length edited_data)%nat) /\
  (~ (m = PyStr (str_of_int (Match r)) /\ t = PyStr (str_of_int (Team r)) /\
      n = PyStr (Name r)) ->
   remove_entry edited_data m t n i = Ok edited_data).
Proof.
  intros Hnd Hin. rewrite (remove_entry_present edited_data m t n i r Hnd Hin).
  split.
  - intros [Hm [Ht Hn]].
    rewrite (proj2 (str_eq_true _ _) Hm), (proj2 (str_eq_true _ _) Ht),
      (proj2 (str_eq_true _ _) Hn). cbn [andb].
    destruct (drop_label_split edited_data i r Hnd Hin) as [a [b [E [F [Ha Hb]]]]].
    exists a, b. split; [exact E|]. split; [now rewrite F|]. split.
    + unfold index. rewrite map_app. intros H. apply in_app_or in H.
      destruct H; [now apply Ha|now apply Hb].
    + rewrite E, !length_app. cbn [length]. lia.
  - intros Hno.
    destruct (str_eq (str_of_int (Match r)) m) eqn:Em; [|reflexivity].
    destruct (str_eq (str_of_int (Team r)) t) eqn:Et; [|reflexivity].
    destruct (str_eq (Name r) n) eqn:En; [|reflexivity].
    exfalso. apply Hno. now rewrite <- !str_eq_true.
Qed.

Lemma remove_entry_effect_witness :
  (exists a b,
     sample_edited = a ++ (1, {| RawIndex := Some 1; cols := sample_columns 6 20 "Ann";
                                 Edited := " " |}) :: b /\
     remove_entry sample_edited (PyStr "6") (PyStr "20") (PyStr "Ann") 1 = Ok (a ++ b) /\
     ~ In 1 (index (a ++ b)) /\
     (length (a ++ b) + 1 = length sample_edited)%nat) /\
  remove_entry sample_edited (PyInt 6) (PyStr "20") (PyStr "Ann") 1 = Ok sample_edited.
Proof.
  assert (Hnd : NoDup (index sample_edited)).
  { simpl. repeat constructor; simpl; intuition discriminate. }
  split.
  - apply (remove_entry_effect sample_edited (PyStr "6") (PyStr "20") (PyStr "Ann") 1
             {| RawIndex := Some 1; cols := sample_columns 6 20 "Ann"; Edited := " " |}
             Hnd).
    + simpl. tauto.
    + repeat split.
  - apply (remove_entry_effect sample_edited (PyInt 6) (PyStr "20") (PyStr "Ann") 1
             {| RawIndex := Some 1; cols := sample_columns 6 20 "Ann"; Edited := " " |}
             Hnd).
    + simpl. tauto.
    + intros [H _]. discriminate H.
Defined.

(** *** Positions after a removal *)

Lemma range_indexed_NoDup {R} (df : DataFrame R) :
  range_indexed df -> NoDup (index df).
Proof.
  intros Hc. rewrite Hc. unfold reset_index, index. generalize 0 as n.
  induction (rows df) as [|x l IH]; intros n; cbn [enumerate_from map fst];
    constructor; [|apply IH].
  intros H. apply in_map_iff in H. destruct H as [[j y] [Hj Hin]].
  cbn [fst] in Hj. subst j. apply enumerate_from_In in Hin. lia.
Qed.

Lemma range_indexed_In {R} (df : DataFrame R) (j : Z) (rj : R) :
  range_indexed df -> In (j, rj) df ->
  0 <= j < Z.of_nat (length df) /\ nth_error (rows df) (Z.to_nat j) = Some rj.
Proof.
  intros Hc Hin. rewrite Hc in Hin. unfold reset_index in Hin.
  apply enumerate_from_In in Hin. destruct Hin as [Hr Hn].
  replace (j - 0) with j in Hn by lia. unfold rows in *.
  rewrite length_map in Hr. split; [lia|exact Hn].
Qed.

Lemma range_indexed_label {R} (df : DataFrame R) (j : Z) :
  range_indexed df -> 0 <= j < Z.of_nat (length df) ->
  exists rj, In (j, rj) df.
Proof.
  intros Hc Hj. destruct (nth_error (rows df) (Z.to_nat j)) as [rj|] eqn:E.
  - exists rj. rewrite Hc. unfold reset_index.
    apply (enumerate_from_nth _ 0) in E. apply nth_error_In in E.
    now replace (0 + Z.of_nat (Z.to_nat j)) with j in E by lia.
  - apply nth_error_None in E. unfold rows in E. rewrite length_map in E. lia.
Qed.

Lemma split_position {R} (a b : DataFrame R) (i : Z) (r : R) :
  range_indexed (a ++ (i, r) :: b) -> i = Z.of_nat (length a).
Proof.
  intros Hc. apply (range_indexed_nth _ (length a) i r Hc).
  now rewrite nth_error_app2, Nat.sub_diag by lia.
Qed.

(** X24: labels do not follow the rows.  After [remove_entry] has taken
    the row of label [i] out of a table labelled by position, the lookup
    of a smaller label still returns its row, but the lookup of a greater
    label [j] returns the row that has the label [j + 1], and the lookup
    of the last label raises [IndexError]. *)
Theorem remove_entry_shifts_positions (edited_data edited_data' : EditedTable)
  (i : Z) (r : EditedRow) :
  range_indexed edited_data -> In (i, r) edited_data ->
  remove_entry edited_data (PyStr (str_of_int (Match r)))
    (PyStr (str_of_int (Team r))) (PyStr (Name r)) i = Ok edited_data' ->
  (forall j rj, In (j, rj) edited_data -> j < i ->
                data_row_at edited_data' j = Ok (Some rj)) /\
  (forall j rj, In (j + 1, rj) edited_data -> i < j ->
                data_row_at edited_data' j = Ok (Some rj)) /\
  (i < Z.of_nat (length edited_data) - 1 ->
   data_row_at edited_data' (Z.of_nat (length edited_data) - 1) = Raise IndexError).
Proof.
  intros Hc Hin Hrm.
  pose proof (range_indexed_NoDup _ Hc) as Hnd.
  rewrite (remove_entry_present _ _ _ _ i r Hnd Hin) in Hrm.
  cbn [str_eq] in Hrm. rewrite !String.eqb_refl in Hrm. cbn [andb] in Hrm.
  destruct (drop_label_split edited_data i r Hnd Hin) as [a [b [E [F [Ha Hb]]]]].
  rewrite F in Hrm. inversion Hrm; subst edited_data'. clear Hrm.
  assert (Hi : i = Z.of_nat (length a)) by (rewrite E in Hc; now apply split_position in Hc).
  assert (Hlen : length edited_data = S (length a + length b))
    by (rewrite E, length_app; cbn [length]; lia).
  assert (Hkeep : forall j x, In (j, x) edited_data -> j <> i -> In j (index (a ++ b))).
  { intros j x Hx Hne. rewrite E in Hx. apply in_app_or in Hx.
    unfold index. rewrite map_app. apply in_or_app.
    destruct Hx as [Hx|[Hx|Hx]].
    - left. change j with (fst (j, x)). now apply in_map.
    - inversion Hx. congruence.
    - right. change j with (fst (j, x)). now apply in_map. }
  assert (Hrows : rows edited_data = rows a ++ r :: rows b)
    by (rewrite E; unfold rows; now rewrite map_app).
  assert (Hrows' : rows (a ++ b) = rows a ++ rows b)
    by (unfold rows; now rewrite map_app).
  assert (Hla : length (rows a) = length a) by (unfold rows; apply length_map).
  split; [|split].
  - intros j rj Hj Hlt. destruct (range_indexed_In _ j rj Hc Hj) as [Hr Hn].
    apply data_row_at_nth; [now apply (Hkeep j rj); [|lia]|lia|].
    rewrite Hrows in Hn. rewrite Hrows'.
    rewrite nth_error_app1 in Hn |- * by lia. exact Hn.
  - intros j rj Hj Hgt. destruct (range_indexed_In _ (j + 1) rj Hc Hj) as [Hr Hn].
    destruct (range_indexed_label edited_data j Hc) as [x Hx]; [lia|].
    apply data_row_at_nth; [now apply (Hkeep j x); [|lia]|lia|].
    rewrite Hrows in Hn. rewrite Hrows'.
    rewrite nth_error_app2 in Hn |- * by lia.
    replace (Z.to_nat (j + 1) - length (rows a))%nat
      with (S (Z.to_nat j - length (rows a))) in Hn by lia.
    exact Hn.
  - intros Hlast.
    destruct (range_indexed_label edited_data (Z.of_nat (length edited_data) - 1) Hc)
      as [x Hx]; [lia|].
    apply data_row_at_beyond; [now apply (Hkeep _ x); [|lia]|].
    rewrite length_app. lia.
Qed.

Lemma remove_entry_shifts_positions_witness :
  data_row_at sample_dropped 0
  = Ok (Some {| RawIndex := Some 0; cols := sample_columns 5 200 "Sam";
                Edited := " " |}) /\
  data_row_at sample_dropped 2 = Raise IndexError.
Proof.
  assert (Hc : range_indexed sample_edited) by reflexivity.
  assert (Hin : In (1, {| RawIndex := Some 1; cols := sample_columns 6 20 "Ann";
                          Edited := " " |}) sample_edited) by (simpl; tauto).
  destruct (remove_entry_shifts_positions sample_edited sample_dropped 1 _ Hc Hin
              eq_refl) as [H1 [_ H3]].
  split.
  - apply H1; [simpl; tauto|lia].
  - apply H3. simpl. lia.
Defined.

(** *** Removal and the next merge *)

Lemma refs_to_zero_isin (i : Z) (l : list EditedRow) :
  refs_to i l = 0%nat -> isin i (dropna (map RawIndex l)) = false.
Proof. intros H. now rewrite isin_refs_to, H. Qed.

(** X25: a removal of an imported row does not outlast the next merge.
    When the removed row was the only one that referred to its raw row,
    the merge of the same raw table appends an unedited copy of that raw
    row again. *)
Theorem remove_then_merge (raw : RawTable) (edited_data edited_data' : EditedTable)
  (l i : Z) (r : EditedRow) (x : Columns) :
  NoDup (index edited_data) -> In (l, r) edited_data ->
  RawIndex r = Some i -> 0 <= i -> nth_error raw (Z.to_nat i) = Some x ->
  refs_to i (rows edited_data) = 1%nat ->
  remove_entry edited_data (PyStr (str_of_int (Match r)))
    (PyStr (str_of_int (Team r))) (PyStr (Name r)) l = Ok edited_data' ->
  refs_to i (rows edited_data') = 0%nat /\
  In (unedited i x) (new_data raw edited_data') /\
  In (unedited i x) (rows (merge raw edited_data')).
Proof.
  intros Hnd Hin Hri Hi Hx Hone Hrm.
  rewrite (remove_entry_present _ _ _ _ l r Hnd Hin) in Hrm.
  cbn [str_eq] in Hrm. rewrite !String.eqb_refl in Hrm. cbn [andb] in Hrm.
  destruct (drop_label_split edited_data l r Hnd Hin) as [a [b [E [F _]]]].
  rewrite F in Hrm. inversion Hrm; subst edited_data'. clear Hrm.
  assert (Hz : refs_to i (rows (a ++ b)) = 0%nat).
  { rewrite E in Hone. unfold rows in *. rewrite map_app in *.
    cbn [map snd] in Hone. rewrite refs_to_app in *.
    change (refs_to i (r :: map snd b))
      with (length (filter (fun r0 => match RawIndex r0 with
                                      | Some j => i =? j
                                      | None => false
                                      end) (r :: map snd b))) in Hone.
    cbn [filter] in Hone. rewrite Hri, Z.eqb_refl in Hone. cbn [length] in Hone.
    fold (refs_to i (map snd b)) in Hone. lia. }
  assert (Hnew : In (unedited i x) (new_data raw (a ++ b))).
  { unfold new_data. apply in_map_iff. exists (i, x). split; [reflexivity|].
    apply filter_In. split.
    - unfold reset_index. apply (enumerate_from_nth _ 0) in Hx.
      apply nth_error_In in Hx.
      now replace (0 + Z.of_nat (Z.to_nat i)) with i in Hx by lia.
    - cbn [fst]. unfold referenced. now rewrite (refs_to_zero_isin _ _ Hz). }
  split; [exact Hz|]. split; [exact Hnew|].
  rewrite rows_merge. apply in_or_app. now right.
Qed.

Lemma remove_then_merge_witness :
  refs_to 1 (rows sample_dropped) = 0%nat /\
  In (unedited 1 (sample_columns 6 20 "Ann")) (new_data sample_raw sample_dropped) /\
  In (unedited 1 (sample_columns 6 20 "Ann")) (rows (merge sample_raw sample_dropped)).
Proof.
  apply (remove_then_merge sample_raw sample_edited sample_dropped 1 1
           {| RawIndex := Some 1; cols := sample_columns 6 20 "Ann"; Edited := " " |}).
  - simpl. repeat constructor; simpl; intuition discriminate.
  - simpl. tauto.
  - reflexivity.
  - lia.
  - reflexivity.
  - reflexivity.
  - reflexivity.
Defined.

(** ** The files of the scan *)

Lemma last_split (sep : ascii) (stem ext : string) :
  free_of sep ext = true ->
  last (split sep (stem ++ String sep ext)%string) EmptyString = ext.
Proof.
  intros He. induction stem as [|c stem IH].
  - cbn [String.append split]. rewrite Ascii.eqb_refl, (split_free _ _ He).
    reflexivity.
  - cbn [String.append split].
    destruct (split_two sep stem ext) as [p [q [rest Hs]]]. rewrite Hs in *.
    destruct (Ascii.eqb c sep); exact IH.
Qed.

(** X26: a file is taken as a CSV file by what follows its last dot,
    without regard to case; a name without a dot is taken by the whole
    name. *)
Theorem is_csv_file_extension (stem ext : string) :
  free_of "." ext = true ->
  is_csv_file (stem ++ "." ++ ext)%string = String.eqb (lower ext) "csv" /\
  is_csv_file ext = String.eqb (lower ext) "csv".
Proof.
  intros He. unfold is_csv_file. split.
  - cbn [String.append]. now rewrite (last_split "." stem ext He).
  - now rewrite (split_free _ _ He).
Qed.

Lemma is_csv_file_extension_witness :
  is_csv_file "scans/day1.CSV" = true /\ is_csv_file "Csv" = true.
Proof.
  split.
  - apply (is_csv_file_extension "scans/day1" "CSV"). reflexivity.
  - apply (is_csv_file_extension "" "Csv"). reflexivity.
Defined.

Lemma init_edited_without_table_witness :
  refs_to 2 (rows (init_edited sample_raw None)) = 1%nat.
Proof.
  destruct (init_edited_without_table sample_raw) as [_ [_ [_ H]]].
  apply H. simpl. lia.
Defined.

(** ** Coverage after an import *)

Lemma merge_covers (raw : RawTable) (edited : EditedTable) (i : Z) :
  0 <= i < Z.of_nat (length raw) ->
  (1 <= refs_to i (rows (merge raw edited)))%nat.
Proof.
  intros Hi. rewrite rows_merge, refs_to_app.
  unfold new_data, reset_index. rewrite refs_to_new_rows.
  zb_true (0 <=? i). zb_true (i <? 0 + Z.of_nat (length raw)). cbn [andb].
  unfold referenced. rewrite isin_refs_to, negb_involutive.
  destruct (Nat.eqb_spec (refs_to i (rows edited)) 0); lia.
Qed.

(** X27: after every [update] that succeeds, each row of the new raw table
    is referenced by an edited row, whatever the edited table held before;
    and the edited table is labelled by position. *)
Theorem update_covers `{C : Collaborators}
  (self self' : VerificationManager) (files : list (list string)) :
  update self files = Ok self' ->
  (forall i, 0 <= i < Z.of_nat (length (raw_entries self')) ->
             (1 <= refs_to i (rows (edited_entries self')))%nat) /\
  range_indexed (edited_entries self').
Proof.
  unfold update. destruct (make_all (read_all files)) as [raw|err]; cbn [bind];
    [|discriminate].
  intros H. inversion H; subst self'. cbn [raw_entries edited_entries]. split.
  - intros i Hi. now apply merge_covers.
  - apply merge_range_indexed.
Qed.

Lemma update_covers_witness :
  (1 <= refs_to 0 (rows (merge [{| Match := 5; Team := 200; Name := "Sam";
                                  StartTime := "30"; Board := "Comp";
                                  Data := "00ff"; Comments := "hello" |}]
                               sample_edited)))%nat.
Proof.
  assert (H : update sample_manager sample_files
              = Ok {| raw_entries := [{| Match := 5; Team := 200; Name := "Sam";
                                         StartTime := "30"; Board := "Comp";
                                         Data := "00ff"; Comments := "hello" |}];
                      edited_entries :=
                        merge [{| Match := 5; Team := 200; Name := "Sam";
                                  StartTime := "30"; Board := "Comp";
                                  Data := "00ff"; Comments := "hello" |}]
                              sample_edited |}) by reflexivity.
  destruct (update_covers sample_manager _ sample_files H) as [Hcov _].
  apply (Hcov 0). simpl. lia.
Defined.
